(** * autosuggest.py: the interactive Google autocomplete tool

    A shallow embedding of [src/autosuggest.py].  Python text is kept as
    its UTF-8 encoding in [string]; Python objects that travel through
    the program untyped (decoded JSON, the language binding) are terms
    of [value]; printing, prompting, the network and the configuration
    file are threaded through an explicit [world]. *)

From Stdlib Require Import String Ascii List ZArith NArith Bool Lia.
From Stdlib Require Import DecimalString SpecFloat.
Import ListNotations.
Open Scope string_scope.

(** ** Text *)

Module Text.

Definition nl : string := String "010"%char EmptyString.

(** Bytes [10xxxxxx] continue a code point begun by an earlier byte. *)
Definition is_continuation (c : ascii) : bool :=
  let n := nat_of_ascii c in (128 <=? n)%nat && (n <? 192)%nat.

Fixpoint chars_aux (s : string) : string * list string :=
  match s with
  | EmptyString => (EmptyString, [])
  | String c s' =>
      let (pend, cs) := chars_aux s' in
      if is_continuation c then (String c pend, cs)
      else (EmptyString, String c pend :: cs)
  end.

(** The code points of a text, each as the bytes that encode it. *)
Definition chars (s : string) : list string :=
  let (pend, cs) := chars_aux s in
  match pend with EmptyString => cs | _ => pend :: cs end.

(** [len(s)]: Python counts code points, not bytes. *)
Definition len (s : string) : nat := List.length (chars s).

Definition payload (c : ascii) : N :=
  let n := N_of_ascii c in
  if (n <? 128)%N then n
  else if (n <? 192)%N then (n - 128)%N
  else if (n <? 224)%N then (n - 192)%N
  else if (n <? 240)%N then (n - 224)%N
  else (n - 240)%N.

Fixpoint code_point_from (acc : N) (s : string) : N :=
  match s with
  | EmptyString => acc
  | String c s' => code_point_from (acc * 64 + payload c)%N s'
  end.

(** The number of the code point encoded by the bytes [ch]. *)
Definition code_point (ch : string) : N :=
  match ch with
  | EmptyString => 0%N
  | String c s' => code_point_from (payload c) s'
  end.

(** [str.isspace] on one code point: the characters [str.strip()]
    removes. *)
Definition isspace (cp : N) : bool :=
  ((9 <=? cp) && (cp <=? 13) || (28 <=? cp) && (cp <=? 32)
   || (cp =? 133) || (cp =? 160) || (cp =? 5760)
   || (8192 <=? cp) && (cp <=? 8202)
   || (cp =? 8232) || (cp =? 8233) || (cp =? 8239)
   || (cp =? 8287) || (cp =? 12288))%N.

Fixpoint lstrip_chars (cs : list string) : list string :=
  match cs with
  | c :: cs' => if isspace (code_point c) then lstrip_chars cs' else cs
  | [] => []
  end.

(** [s.strip()] *)
Definition strip (s : string) : string :=
  String.concat EmptyString
    (rev (lstrip_chars (rev (lstrip_chars (chars s))))).

Definition lower_ascii (c : ascii) : ascii :=
  let n := nat_of_ascii c in
  if (65 <=? n)%nat && (n <=? 90)%nat then ascii_of_nat (n + 32) else c.

(** [s.lower()] on the ASCII letters.  The words the program compares a
    lowered text with are ASCII and hold no [k], the one ASCII letter
    that a character outside ASCII lowers to, so bytes outside ASCII
    are left as they are. *)
Fixpoint lower (s : string) : string :=
  match s with
  | EmptyString => EmptyString
  | String c s' => String (lower_ascii c) (lower s')
  end.

Fixpoint repeat_str (s : string) (n : nat) : string :=
  match n with
  | O => EmptyString
  | S n' => s ++ repeat_str s n'
  end.

Definition string_of_nat (n : nat) : string :=
  NilEmpty.string_of_uint (Nat.to_uint n).

(** [f"{i:2d}"]: decimal, right-aligned in two columns. *)
Definition format_2d (i : nat) : string :=
  let d := string_of_nat i in
  repeat_str " " (2 - String.length d) ++ d.

(** [f"{key:2s}"]: text, left-aligned in two columns. *)
Definition format_2s (s : string) : string :=
  s ++ repeat_str " " (2 - len s).

Definition mem (s : string) (l : list string) : bool :=
  existsb (String.eqb s) l.

Definition is_empty (s : string) : bool :=
  match s with EmptyString => true | _ => false end.

End Text.

(** ** Python objects *)

Set Warnings "-register-all".


(** What [json.loads] can return, which is also everything the program
    passes around.  A [PyDict] lists its items in insertion order, each
    key once. *)
Inductive value : Type :=
| PyNone
| PyBool (b : bool)
| PyInt (z : Z)
| PyFloat (f : spec_float)
| PyStr (s : string)
| PyList (l : list value)
| PyDict (d : list (string * value)).

Inductive exn : Type :=
| KeyboardInterrupt
| EOFError
| JSONDecodeError
| IndexError
| KeyError
| TypeError
| AttributeError
| Timeout
| RequestException (detail : string)
| SystemExit (code : Z).

(** The result of running a piece of the program: a value, a raised
    exception, or a loop that ran out of the steps it was given. *)
Inductive outcome (A : Type) : Type :=
| Return (a : A)
| Raise (e : exn)
| OutOfFuel.
Arguments Return {A} a.
Arguments Raise {A} e.
Arguments OutOfFuel {A}.

Definition float_is_zero (f : spec_float) : bool :=
  match f with S754_zero _ => true | _ => false end.

(** Truth value of an object, as [if x:] and [not x] take it. *)
Definition truthy (v : value) : bool :=
  match v with
  | PyNone => false
  | PyBool b => b
  | PyInt z => negb (z =? 0)%Z
  | PyFloat f => negb (float_is_zero f)
  | PyStr s => negb (Text.is_empty s)
  | PyList l => match l with [] => false | _ => true end
  | PyDict d => match d with [] => false | _ => true end
  end.

Fixpoint dict_get (k : string) (d : list (string * value)) : option value :=
  match d with
  | [] => None
  | (k', v) :: d' => if String.eqb k k' then Some v else dict_get k d'
  end.

(** [v[i]] for an integer [i >= 0].  The keys of a decoded JSON object
    are text, so an integer is never among them. *)
Definition getitem_int (v : value) (i : nat) : outcome value :=
  match v with
  | PyList l =>
      match nth_error l i with Some x => Return x | None => Raise IndexError end
  | PyStr s =>
      match nth_error (Text.chars s) i with
      | Some c => Return (PyStr c)
      | None => Raise IndexError
      end
  | PyDict _ => Raise KeyError
  | _ => Raise TypeError
  end.

(** [v[k]] for a text key [k]. *)
Definition getitem_str (v : value) (k : string) : outcome value :=
  match v with
  | PyDict d =>
      match dict_get k d with Some x => Return x | None => Raise KeyError end
  | _ => Raise TypeError
  end.

(** [v.items()] *)
Definition dict_items (v : value) : outcome (list (string * value)) :=
  match v with
  | PyDict d => Return d
  | _ => Raise AttributeError
  end.

(** [len(v)] *)
Definition py_len (v : value) : outcome nat :=
  match v with
  | PyStr s => Return (Text.len s)
  | PyList l => Return (List.length l)
  | PyDict d => Return (List.length d)
  | _ => Raise TypeError
  end.

(** [iter(v)], unfolded to the objects it yields. *)
Definition py_iter (v : value) : outcome (list value) :=
  match v with
  | PyStr s => Return (map PyStr (Text.chars s))
  | PyList l => Return l
  | PyDict d => Return (map (fun kv => PyStr (fst kv)) d)
  | _ => Raise TypeError
  end.

(** ** The world the program runs in *)

Inductive tty_event : Type :=
| Line (text : string)       (* a line typed at the terminal, newline removed *)
| CtrlC.                     (* the interrupt key pressed while waiting *)

Inductive io_event : Type :=
| Printed (text : string)    (* [print(text)] *)
| Prompted (text : string)   (* the prompt written by [input(text)] *)
| Requested (url : string).  (* an HTTP GET issued *)

(** What [requests.get] can do. *)
Inductive net_result : Type :=
| NetTimeout
| NetFailure (detail : string)
| NetInterrupted
| NetResponse (status : Z) (text : string).

Record world : Type := mkWorld {
  stdin : list tty_event;             (* what the user is yet to type *)
  trace : list io_event;              (* what happened so far, oldest first *)
  files : string -> option string     (* contents of the files that exist *)
}.

Definition emit (e : io_event) (w : world) : world :=
  mkWorld (stdin w) (trace w ++ [e]) (files w).

Definition write_file (path text : string) (w : world) : world :=
  mkWorld (stdin w) (trace w)
    (fun p => if String.eqb p path then Some text else files w p).

Definition emit_all (es : list io_event) (w : world) : world :=
  mkWorld (stdin w) (trace w ++ es) (files w).

(** A world in which nothing has happened yet and no file exists. *)
Definition fresh_world (typed : list tty_event) : world :=
  mkWorld typed [] (fun _ => None).

Definition requests_made (t : list io_event) : nat :=
  List.length (filter (fun e => match e with Requested _ => true | _ => false end) t).

(** ** Computations: state and exceptions *)

Definition M (A : Type) : Type := world -> outcome A * world.

Definition ret {A} (a : A) : M A := fun w => (Return a, w).

Definition raise {A} (e : exn) : M A := fun w => (Raise e, w).

Definition lift {A} (o : outcome A) : M A := fun w => (o, w).

Definition bind {A B} (m : M A) (k : A -> M B) : M B :=
  fun w =>
    match m w with
    | (Return a, w') => k a w'
    | (Raise e, w') => (Raise e, w')
    | (OutOfFuel, w') => (OutOfFuel, w')
    end.

Declare Scope py_scope.
Delimit Scope py_scope with py.
Notation "x <- m ;; k" := (bind m (fun x => k))
  (at level 61, m at next level, right associativity) : py_scope.
Notation "m ;; k" := (bind m (fun _ => k))
  (at level 61, right associativity) : py_scope.
Notation "' pat <- m ;; k" := (bind m (fun x => match x with pat => k end))
  (at level 61, pat pattern, m at next level, right associativity) : py_scope.
Open Scope py_scope.

(** [try: m  except ...: h]: [h] decides which exceptions it takes. *)
Definition try_except {A} (m : M A) (h : exn -> option (M A)) : M A :=
  fun w =>
    match m w with
    | (Raise e, w') =>
        match h e with Some k => k w' | None => (Raise e, w') end
    | r => r
    end.

Definition print (text : string) : M unit :=
  fun w => (Return tt, emit (Printed text) w).

(** [input(prompt)]: end of input raises [EOFError]. *)
Definition input (prompt : string) : M string :=
  fun w =>
    let w' := emit (Prompted prompt) w in
    match stdin w' with
    | Line s :: rest => (Return s, mkWorld rest (trace w') (files w'))
    | CtrlC :: rest => (Raise KeyboardInterrupt, mkWorld rest (trace w') (files w'))
    | [] => (Raise EOFError, w')
    end.

(** Run in [w], [m] comes to an end, and what it leaves on the terminal
    is no more than what it found there. *)
Definition tame_at {A} (m : M A) (w : world) : Prop :=
  fst (m w) <> OutOfFuel
  /\ (List.length (stdin (snd (m w))) <= List.length (stdin w))%nat.

Definition tame {A} (m : M A) : Prop := forall w, tame_at m w.

(** When [m] returns, it has read at least one terminal event. *)
Definition consuming {A} (m : M A) : Prop :=
  forall w a w',
    m w = (Return a, w') ->
    (List.length (stdin w') < List.length (stdin w))%nat.

(** [for x in xs: body x] *)
Fixpoint for_each {A} (xs : list A) (body : A -> M unit) : M unit :=
  match xs with
  | [] => ret tt
  | x :: xs' => body x ;; for_each xs' body
  end.

(** The lines of a ranked list: each text behind its rank, the ranks
    counted from [first]. *)
Definition ranked (first : nat) (texts : list string) : list io_event :=
  map (fun it => Printed (Text.format_2d (fst it) ++ ". " ++ snd it))
    (combine (seq first (List.length texts)) texts).

(** [enumerate(xs, start)] *)
Fixpoint enumerate {A} (xs : list A) (start : nat) : list (nat * A) :=
  match xs with
  | [] => []
  | x :: xs' => (start, x) :: enumerate xs' (S start)
  end.

Definition obind {A B} (o : outcome A) (k : A -> outcome B) : outcome B :=
  match o with
  | Return a => k a
  | Raise e => Raise e
  | OutOfFuel => OutOfFuel
  end.

(** ** [urllib.parse.quote] *)

Module Quote.

(** Letters, digits, [_.-~] and the default safe character [/] are kept;
    every other byte of the UTF-8 text becomes [%XX]. *)
Definition unreserved (c : ascii) : bool :=
  let n := nat_of_ascii c in
  ((65 <=? n) && (n <=? 90) || (97 <=? n) && (n <=? 122)
   || (48 <=? n) && (n <=? 57)
   || (n =? 95) || (n =? 46) || (n =? 45) || (n =? 126) || (n =? 47))%nat.

Definition hex_digit (n : nat) : ascii :=
  if (n <? 10)%nat then ascii_of_nat (48 + n) else ascii_of_nat (55 + n).

Definition percent (c : ascii) : string :=
  let n := nat_of_ascii c in
  String "%" (String (hex_digit (n / 16)) (String (hex_digit (n mod 16)) EmptyString)).

Fixpoint quote (s : string) : string :=
  match s with
  | EmptyString => EmptyString
  | String c s' =>
      (if unreserved c then String c EmptyString else percent c) ++ quote s'
  end.

End Quote.

(** ** The program *)

Inductive flow : Type :=
| Continue (lang is_rtl : value)   (* next turn of the loop, with this binding *)
| Break.

(** How the process ends once [main] is over. *)
Inductive termination : Type :=
| Exited (status : Z)        (* the interpreter exits with this status *)
| Traceback (e : exn)        (* an exception nobody caught *)
| Unfinished.

Definition finish (r : outcome unit) : termination :=
  match r with
  | Return _ => Exited 0
  | Raise (SystemExit code) => Exited code
  | Raise e => Traceback e
  | OutOfFuel => Unfinished
  end.

(** The statuses [raise_for_status] lets through. *)
Definition status_ok (status : Z) : bool :=
  negb ((400 <=? status) && (status <? 600))%Z.

Section Program.

(** The libraries the program calls. *)
Variable json_loads : string -> option value.        (* [None]: JSONDecodeError *)
Variable json_dumps : value -> string.               (* text of [json.dump(.., indent=4)] *)
Variable requests_get : nat -> string -> net_result.  (* by requests made before, and URL *)
Variable http_error_text : Z -> string -> string.    (* text of the HTTPError for a status *)
Variable reshape : value -> outcome value.           (* [arabic_reshaper.reshape] *)
Variable get_display : value -> outcome value.       (* [bidi.algorithm.get_display] *)
Variable py_repr : value -> string.                  (* [str(v)] when [v] is not text *)

(** [str(v)], as an f-string field formats it. *)
Definition py_str (v : value) : string :=
  match v with PyStr s => s | _ => py_repr v end.

Definition config_path : string := "language_config.json".

Definition default_config : value :=
  PyDict [("languages", PyDict [
    ("1", PyDict [("code", PyStr "en"); ("name", PyStr "English"); ("rtl", PyBool false)]);
    ("2", PyDict [("code", PyStr "he"); ("name", PyStr "Hebrew"); ("rtl", PyBool true)])])].

Definition load_language_config : M value :=
  fun w =>
    match files w config_path with
    | None =>
        (Return default_config,
         write_file config_path (json_dumps default_config) w)
    | Some text =>
        match json_loads text with
        | Some v => (Return v, w)
        | None => (Raise JSONDecodeError, w)
        end
    end.

(** [requests.get(url, timeout=10)] *)
Definition http_get (url : string) : M (Z * string) :=
  fun w =>
    let w' := emit (Requested url) w in
    match requests_get (requests_made (trace w)) url with
    | NetTimeout => (Raise Timeout, w')
    | NetFailure detail => (Raise (RequestException detail), w')
    | NetInterrupted => (Raise KeyboardInterrupt, w')
    | NetResponse status text => (Return (status, text), w')
    end.

(** [response.raise_for_status()] *)
Definition raise_for_status (url : string) (status : Z) : M unit :=
  if ((400 <=? status) && (status <? 600))%Z
  then raise (RequestException (http_error_text status url))
  else ret tt.

Definition loads (text : string) : M value :=
  match json_loads text with
  | Some v => ret v
  | None => raise JSONDecodeError
  end.

Definition fetch_url (keyword : string) (lang : value) : string :=
  "http://suggestqueries.google.com/complete/search?client=firefox&q="
    ++ Quote.quote keyword ++ "&hl=" ++ py_str lang.

(** What the network answers to the request that fetching [keyword]
    makes in the world [w]. *)
Definition answer (keyword : string) (lang : value) (w : world) : net_result :=
  requests_get (requests_made (trace w)) (fetch_url keyword lang).

Definition get_google_autocomplete (keyword : string) (lang : value) : M value :=
  try_except
    (let url := fetch_url keyword lang in
     '(status, text) <- http_get url ;;
     raise_for_status url status ;;
     parsed <- loads text ;;
     suggestions <- lift (getitem_int parsed 1) ;;
     ret suggestions)
    (fun e =>
       match e with
       | Timeout =>
           Some (print "❌ Request timed out. Please check your internet connection." ;;
                 ret (PyList []))
       | RequestException detail =>
           Some (print ("❌ Error fetching suggestions: " ++ detail) ;;
                 ret (PyList []))
       | IndexError | JSONDecodeError =>
           Some (print "❌ Unexpected response format from Google." ;;
                 ret (PyList []))
       | _ => None
       end).

Definition process_rtl_text (text is_rtl : value) : outcome value :=
  if truthy is_rtl then
    obind (reshape text) (fun reshaped_text => get_display reshaped_text)
  else Return text.

Definition display_suggestions (keyword suggestions is_rtl : value) : M unit :=
  processed_keyword <- lift (process_rtl_text keyword is_rtl) ;;
  print (Text.nl ++ "🔍 Autocomplete suggestions for '" ++ py_str processed_keyword ++ "':") ;;
  width <- lift (py_len processed_keyword) ;;
  print (Text.repeat_str "=" (width + 35)) ;;
  if negb (truthy suggestions) then
    print "No suggestions found."
  else
    items <- lift (py_iter suggestions) ;;
    for_each (enumerate items 1)
      (fun '(i, suggestion) =>
         processed_suggestion <- lift (process_rtl_text suggestion is_rtl) ;;
         print (Text.format_2d i ++ ". " ++ py_str processed_suggestion)) ;;
    count <- lift (py_len suggestions) ;;
    print (Text.nl ++ "Found " ++ Text.string_of_nat count ++ " suggestion(s)").

Definition choice_prompt : string :=
  Text.nl ++ "Enter choice (1-2, or press Enter for English): ".

(** The [while True] of [get_language_choice]; every turn reads a line,
    so [fuel] above the number of pending terminal events is never
    used up. *)
Fixpoint choice_loop (fuel : nat) (languages : list (string * value))
  : M (value * value) :=
  match fuel with
  | O => lift OutOfFuel
  | S fuel' =>
      line <- input choice_prompt ;;
      let choice := Text.strip line in
      if Text.is_empty choice then ret (PyStr "en", PyBool false)
      else
        match dict_get choice languages with
        | Some lang_info =>
            code <- lift (getitem_str lang_info "code") ;;
            rtl <- lift (getitem_str lang_info "rtl") ;;
            ret (code, rtl)
        | None =>
            print "❌ Invalid choice. Please enter a number between 1-2." ;;
            choice_loop fuel' languages
        end
  end.

Definition prompt_language (languages : list (string * value))
  : M (value * value) :=
  fun w => choice_loop (S (List.length (stdin w))) languages w.

Definition print_menu (items : list (string * value)) : M unit :=
  for_each items
    (fun '(key, lang_info) =>
       name <- lift (getitem_str lang_info "name") ;;
       code <- lift (getitem_str lang_info "code") ;;
       print (Text.format_2s key ++ ". " ++ py_str name ++ " (" ++ py_str code ++ ")")).

Definition get_language_choice : M (value * value) :=
  config <- load_language_config ;;
  languages <- lift (getitem_str config "languages") ;;
  print (Text.nl ++ "🌐 Select language:") ;;
  items <- lift (dict_items languages) ;;
  print_menu items ;;
  prompt_language items.

Definition keyword_prompt : string := "🔤 Enter keyword to search: ".

Definition continue_prompt : string :=
  Text.nl ++ "❓ Search another keyword? (y/n): ".

(** The question that ends a query (lines 178-181). *)
Definition ask_continue (lang is_rtl : value) : M flow :=
  answer <- input continue_prompt ;;
  let continue_choice := Text.lower (Text.strip answer) in
  if Text.mem continue_choice ["n"; "no"] then
    (print (Text.nl ++ "👋 Thanks for using Google Autocomplete Tool!") ;; ret Break)
  else ret (Continue lang is_rtl).

Definition turn_rule : string := Text.nl ++ Text.repeat_str "-" 40.

(** One turn of the [while True] of [main]. *)
Definition loop_body (lang is_rtl : value) : M flow :=
  print turn_rule ;;
  line <- input keyword_prompt ;;
  let keyword := Text.strip line in
  if Text.mem (Text.lower keyword) ["quit"; "exit"; "q"] then
    (print (Text.nl ++ "👋 Goodbye!") ;; ret Break)
  else if String.eqb (Text.lower keyword) "lang" then
    ('(lang', is_rtl') <- get_language_choice ;;
     print ("✅ Language changed to: " ++ py_str lang') ;;
     ret (Continue lang' is_rtl'))
  else if Text.is_empty keyword then
    (print "❌ Please enter a valid keyword." ;; ret (Continue lang is_rtl))
  else
    (shown <- lift (process_rtl_text (PyStr keyword) is_rtl) ;;
     print (Text.nl ++ "⏳ Fetching suggestions for '" ++ py_str shown ++ "'...") ;;
     suggestions <- get_google_autocomplete keyword lang ;;
     display_suggestions (PyStr keyword) suggestions is_rtl ;;
     ask_continue lang is_rtl).

Fixpoint main_loop (fuel : nat) (lang is_rtl : value) : M unit :=
  match fuel with
  | O => lift OutOfFuel
  | S fuel' =>
      next <- loop_body lang is_rtl ;;
      match next with
      | Break => ret tt
      | Continue lang' is_rtl' => main_loop fuel' lang' is_rtl'
      end
  end.

Definition main : M unit :=
  print "🚀 Google Autocomplete Suggestion Tool" ;;
  print (Text.repeat_str "=" 40) ;;
  '(lang, is_rtl) <- get_language_choice ;;
  print (Text.nl ++ "✅ Language set to: " ++ py_str lang) ;;
  print (Text.nl ++ "💡 Tips:") ;;
  print "  - Type 'quit', 'exit', or 'q' to exit" ;;
  print "  - Type 'lang' to change language" ;;
  print "  - Press Ctrl+C to exit anytime" ;;
  try_except
    (fun w => main_loop (S (List.length (stdin w))) lang is_rtl w)
    (fun e =>
       match e with
       | KeyboardInterrupt =>
           Some (print (Text.nl ++ Text.nl ++ "👋 Exiting... Goodbye!") ;;
                 raise (SystemExit 0))
       | _ => None
       end).

(** The program from start to end: how it ends and what happened. *)
Definition run (w : world) : termination * list io_event :=
  let (r, w') := main w in (finish r, trace w').

End Program.


(** ** Stand-ins for the libraries

    Executable instances of the library functions [Program] is
    parameterised by, to run the program on concrete inputs.  The
    decoder reads the JSON documents built from objects, arrays, texts
    without escape sequences, integers and the three literals, and
    reports any other text as undecodable. *)

Module Ref.

Definition dq : string := String "034"%char EmptyString.

Definition is_ws (c : ascii) : bool :=
  let n := nat_of_ascii c in
  ((n =? 32) || (n =? 9) || (n =? 10) || (n =? 13))%nat.

Definition is_digit (c : ascii) : bool :=
  let n := nat_of_ascii c in ((48 <=? n) && (n <=? 57))%nat.

Fixpoint skip_ws (s : string) : string :=
  match s with
  | String c s' => if is_ws c then skip_ws s' else s
  | EmptyString => s
  end.

(** [expect lit s]: [s] without its prefix [lit]. *)
Fixpoint expect (lit s : string) : option string :=
  match lit, s with
  | EmptyString, _ => Some s
  | String a lit', String b s' =>
      if Ascii.eqb a b then expect lit' s' else None
  | _, _ => None
  end.

(** The text up to the closing quote, and what follows the quote. *)
Fixpoint text_body (s : string) : option (string * string) :=
  match s with
  | EmptyString => None
  | String c s' =>
      let n := nat_of_ascii c in
      if (n =? 34)%nat then Some (EmptyString, s')
      else if ((n =? 92) || (n <? 32))%nat then None
      else match text_body s' with
           | Some (t, rest) => Some (String c t, rest)
           | None => None
           end
  end.

Fixpoint digits (acc : Z) (s : string) : Z * string :=
  match s with
  | String c s' =>
      if is_digit c
      then digits (acc * 10 + Z.of_nat (nat_of_ascii c - 48)) s'
      else (acc, s)
  | EmptyString => (acc, s)
  end.

Definition starts_fraction (s : string) : bool :=
  match s with
  | String c _ =>
      let n := nat_of_ascii c in ((n =? 46) || (n =? 101) || (n =? 69))%nat
  | EmptyString => false
  end.

(** An integer without sign, no leading zero. *)
Definition natural (s : string) : option (Z * string) :=
  match s with
  | String c s' =>
      if is_digit c then
        let '(z, rest) := digits 0 s in
        if starts_fraction rest then None
        else if (nat_of_ascii c =? 48)%nat
             then (if (z =? 0)%Z && (String.length s - String.length rest =? 1)%nat
                   then Some (z, rest) else None)
             else Some (z, rest)
      else None
  | EmptyString => None
  end.

(** Later occurrences of a key replace its value in place. *)
Fixpoint dict_set (k : string) (v : value) (d : list (string * value))
  : list (string * value) :=
  match d with
  | [] => [(k, v)]
  | (k', v') :: d' =>
      if String.eqb k k' then (k, v) :: d' else (k', v') :: dict_set k v d'
  end.

Fixpoint element (fuel : nat) (s : string) : option (value * string) :=
  match fuel with
  | O => None
  | S fuel' =>
      match skip_ws s with
      | String c rest =>
          let n := nat_of_ascii c in
          if (n =? 110)%nat then
            option_map (pair PyNone) (expect "ull" rest)
          else if (n =? 116)%nat then
            option_map (pair (PyBool true)) (expect "rue" rest)
          else if (n =? 102)%nat then
            option_map (pair (PyBool false)) (expect "alse" rest)
          else if (n =? 34)%nat then
            option_map (fun tr => (PyStr (fst tr), snd tr)) (text_body rest)
          else if (n =? 45)%nat then
            option_map (fun zr => (PyInt (- fst zr), snd zr)) (natural rest)
          else if (n =? 91)%nat then
            match skip_ws rest with
            | String "]" rest' => Some (PyList [], rest')
            | _ => option_map (fun lr => (PyList (fst lr), snd lr))
                     (elements fuel' rest)
            end
          else if (n =? 123)%nat then
            match skip_ws rest with
            | String "}" rest' => Some (PyDict [], rest')
            | _ => option_map (fun dr => (PyDict (fst dr), snd dr))
                     (members fuel' [] rest)
            end
          else
            option_map (fun zr => (PyInt (fst zr), snd zr))
              (natural (String c rest))
      | EmptyString => None
      end
  end
with elements (fuel : nat) (s : string) : option (list value * string) :=
  match fuel with
  | O => None
  | S fuel' =>
      match element fuel' s with
      | Some (v, rest) =>
          match skip_ws rest with
          | String "," rest' =>
              option_map (fun lr => (v :: fst lr, snd lr)) (elements fuel' rest')
          | String "]" rest' => Some ([v], rest')
          | _ => None
          end
      | None => None
      end
  end
with members (fuel : nat) (acc : list (string * value)) (s : string)
  : option (list (string * value) * string) :=
  match fuel with
  | O => None
  | S fuel' =>
      match expect dq (skip_ws s) with
      | Some rest =>
          match text_body rest with
          | Some (k, rest1) =>
              match skip_ws rest1 with
              | String ":" rest2 =>
                  match element fuel' rest2 with
                  | Some (v, rest3) =>
                      match skip_ws rest3 with
                      | String "," rest4 => members fuel' (dict_set k v acc) rest4
                      | String "}" rest4 => Some (dict_set k v acc, rest4)
                      | _ => None
                      end
                  | None => None
                  end
              | _ => None
              end
          | None => None
          end
      | None => None
      end
  end.

Definition json_loads (text : string) : option value :=
  match element (2 * String.length text + 2) text with
  | Some (v, rest) =>
      match skip_ws rest with EmptyString => Some v | _ => None end
  | None => None
  end.

Definition pad (depth : nat) : string := Text.repeat_str "    " depth.

(** The encoder with [indent=4], on the same documents; a fraction is
    written as [NaN]. *)
Fixpoint dumps (depth : nat) (v : value) : string :=
  match v with
  | PyNone => "null"
  | PyBool true => "true"
  | PyBool false => "false"
  | PyInt z => NilEmpty.string_of_int (Z.to_int z)
  | PyFloat _ => "NaN"
  | PyStr t => dq ++ t ++ dq
  | PyList [] => "[]"
  | PyList (x :: xs) =>
      "[" ++ Text.nl ++ pad (S depth) ++ dumps (S depth) x
      ++ (fix rest (l : list value) : string :=
            match l with
            | [] => EmptyString
            | y :: l' =>
                "," ++ Text.nl ++ pad (S depth) ++ dumps (S depth) y ++ rest l'
            end) xs
      ++ Text.nl ++ pad depth ++ "]"
  | PyDict [] => "{}"
  | PyDict ((k, x) :: kxs) =>
      "{" ++ Text.nl ++ pad (S depth) ++ dq ++ k ++ dq ++ ": " ++ dumps (S depth) x
      ++ (fix rest (l : list (string * value)) : string :=
            match l with
            | [] => EmptyString
            | (k', y) :: l' =>
                "," ++ Text.nl ++ pad (S depth) ++ dq ++ k' ++ dq ++ ": "
                ++ dumps (S depth) y ++ rest l'
            end) kxs
      ++ Text.nl ++ pad depth ++ "}"
  end.

Definition json_dumps (v : value) : string := dumps 0 v.

(** Reshaping joins Arabic letters and leaves other text as it is. *)
Definition reshape (v : value) : outcome value :=
  match v with
  | PyStr _ => Return v
  | _ => Raise TypeError
  end.

(** Display order of a run of right-to-left letters: the code points
    in reverse. *)
Definition get_display (v : value) : outcome value :=
  match v with
  | PyStr t => Return (PyStr (String.concat EmptyString (rev (Text.chars t))))
  | _ => Raise TypeError
  end.

Definition py_repr (v : value) : string := json_dumps v.

Definition http_error_text (status : Z) (url : string) : string :=
  NilEmpty.string_of_int (Z.to_int status) ++ " Error for url: " ++ url.

(** A network that answers every request alike. *)
Definition always (r : net_result) : nat -> string -> net_result :=
  fun _ _ => r.

(** The body [["cat", ["cat food", "cats"]]]. *)
Definition cat_body : string :=
  "[" ++ dq ++ "cat" ++ dq ++ ", [" ++ dq ++ "cat food" ++ dq ++ ", "
  ++ dq ++ "cats" ++ dq ++ "]]".

(** A world whose only file is the configuration file, holding [text]. *)
Definition with_config (text : string) (typed : list tty_event) : world :=
  write_file config_path text (fresh_world typed).

(** The text [{"languages": {}}]. *)
Definition empty_table : string :=
  "{" ++ dq ++ "languages" ++ dq ++ ": {}}".

Definition default_languages : list (string * value) :=
  [("1", PyDict [("code", PyStr "en"); ("name", PyStr "English"); ("rtl", PyBool false)]);
   ("2", PyDict [("code", PyStr "he"); ("name", PyStr "Hebrew"); ("rtl", PyBool true)])].

(** The program over these stand-ins. *)
Definition load : M value := load_language_config json_loads json_dumps.

Definition choose : M (value * value) :=
  get_language_choice json_loads json_dumps py_repr.

Definition fetch (net : nat -> string -> net_result) : string -> value -> M value :=
  get_google_autocomplete json_loads net http_error_text py_repr.

Definition process : value -> value -> outcome value :=
  process_rtl_text reshape get_display.

Definition display : value -> value -> value -> M unit :=
  display_suggestions reshape get_display py_repr.

Definition turn (net : nat -> string -> net_result) : value -> value -> M flow :=
  loop_body json_loads json_dumps net http_error_text reshape get_display py_repr.

Definition loop (net : nat -> string -> net_result)
  : nat -> value -> value -> M unit :=
  main_loop json_loads json_dumps net http_error_text reshape get_display py_repr.

Definition session (net : nat -> string -> net_result)
  : world -> termination * list io_event :=
  run json_loads json_dumps net http_error_text reshape get_display py_repr.

End Ref.

(** ** The model on concrete inputs *)

Example len_hebrew : Text.len "שלום" = 4.
Proof. reflexivity. Qed.

Example strip_eg : Text.strip "   Cat food  " = "Cat food".
Proof. reflexivity. Qed.

Example strip_blank : Text.strip ("  " ++ Text.nl) = EmptyString.
Proof. reflexivity. Qed.

Example lower_eg : Text.lower "QuIt" = "quit".
Proof. reflexivity. Qed.

Example format_2d_eg : Text.format_2d 7 = " 7" /\ Text.format_2d 12 = "12".
Proof. split; reflexivity. Qed.

Example quote_eg : Quote.quote "cat food/é" = "cat%20food/%C3%A9".
Proof. reflexivity. Qed.

Example loads_pair :
  Ref.json_loads ("[" ++ Ref.dq ++ "cat" ++ Ref.dq ++ ", [" ++ Ref.dq ++ "cat food"
                  ++ Ref.dq ++ "," ++ Ref.dq ++ "cats" ++ Ref.dq ++ "]]")
  = Some (PyList [PyStr "cat"; PyList [PyStr "cat food"; PyStr "cats"]]).
Proof. vm_compute. reflexivity. Qed.

Example loads_misc :
  Ref.json_loads "{}" = Some (PyDict [])
  /\ Ref.json_loads " [1, -20, null, true, [], {}] " =
       Some (PyList [PyInt 1; PyInt (-20); PyNone; PyBool true; PyList []; PyDict []])
  /\ Ref.json_loads "<html>" = None
  /\ Ref.json_loads "[1,]" = None
  /\ Ref.json_loads "[1] 2" = None
  /\ Ref.json_loads "01" = None
  /\ Ref.json_loads EmptyString = None.
Proof. vm_compute. repeat split; reflexivity. Qed.

Example dumps_loads_default :
  Ref.json_loads (Ref.json_dumps default_config) = Some default_config.
Proof. vm_compute. reflexivity. Qed.

Example get_display_hebrew :
  Ref.get_display (PyStr "שלום") = Return (PyStr "םולש").
Proof. vm_compute. reflexivity. Qed.

(** ** Properties of the fetcher *)

Section Fetcher.

Variable json_loads : string -> option value.
Variable requests_get : nat -> string -> net_result.
Variable http_error_text : Z -> string -> string.
Variable py_repr : value -> string.

Local Abbreviation fetch :=
  (get_google_autocomplete json_loads requests_get http_error_text py_repr).
Local Abbreviation url_of := (fetch_url py_repr).

Local Abbreviation answer := (answer requests_get py_repr).

Lemma raise_for_status_ok (url : string) (status : Z) (w : world) :
  status_ok status = true ->
  raise_for_status http_error_text url status w = (Return tt, w).
Proof.
  unfold status_ok, raise_for_status. intros H.
  destruct ((400 <=? status) && (status <? 600))%Z; [discriminate | reflexivity].
Qed.

(** A decodable body of a successful response: the call does what
    [parsed[1]] does, caught or not. *)
Lemma fetch_decoded keyword lang w status text parsed :
  answer keyword lang w = NetResponse status text ->
  status_ok status = true ->
  json_loads text = Some parsed ->
  fetch keyword lang w =
    let w' := emit (Requested (url_of keyword lang)) w in
    match getitem_int parsed 1 with
    | Return x => (Return x, w')
    | Raise IndexError =>
        (Return (PyList []),
         emit (Printed "❌ Unexpected response format from Google.") w')
    | Raise e => (Raise e, w')
    | OutOfFuel => (OutOfFuel, w')
    end.
Proof.
  unfold answer. intros Hnet Hok Hjson.
  unfold get_google_autocomplete, try_except, bind, http_get.
  rewrite Hnet. rewrite (raise_for_status_ok _ _ _ Hok).
  unfold loads. rewrite Hjson. unfold ret, lift.
  destruct parsed as [ | | | | s | l | d]; unfold getitem_int; try reflexivity.
  - destruct (nth_error (Text.chars s) 1); reflexivity.
  - destruct (nth_error l 1); reflexivity.
Qed.

(** X1: when the request times out, [get_google_autocomplete] returns
    the empty list and prints the time-out line, once. *)
Lemma fetch_timeout keyword lang w :
  answer keyword lang w = NetTimeout ->
  fetch keyword lang w =
    (Return (PyList []),
     emit (Printed "❌ Request timed out. Please check your internet connection.")
       (emit (Requested (url_of keyword lang)) w)).
Proof.
  unfold answer. intros Hnet.
  unfold get_google_autocomplete, try_except, bind, http_get.
  rewrite Hnet. reflexivity.
Qed.

(** X2: when the request fails in any other way, [get_google_autocomplete]
    returns the empty list and prints one line, which carries the text of
    the failure. *)
Lemma fetch_transport_failure keyword lang w detail :
  answer keyword lang w = NetFailure detail ->
  fetch keyword lang w =
    (Return (PyList []),
     emit (Printed ("❌ Error fetching suggestions: " ++ detail))
       (emit (Requested (url_of keyword lang)) w)).
Proof.
  unfold answer. intros Hnet.
  unfold get_google_autocomplete, try_except, bind, http_get.
  rewrite Hnet. reflexivity.
Qed.

(** X3: a response with a status from 400 to 599 is a failure like the
    others: the body is not read, the empty list is returned and one
    line with the text of the HTTP error is printed. *)
Lemma fetch_bad_status keyword lang w status text :
  answer keyword lang w = NetResponse status text ->
  status_ok status = false ->
  fetch keyword lang w =
    (Return (PyList []),
     emit (Printed ("❌ Error fetching suggestions: "
                    ++ http_error_text status (url_of keyword lang)))
       (emit (Requested (url_of keyword lang)) w)).
Proof.
  unfold answer, status_ok. intros Hnet Hbad.
  unfold get_google_autocomplete, try_except, bind, http_get, raise_for_status.
  rewrite Hnet.
  destruct ((400 <=? status) && (status <? 600))%Z; [reflexivity | discriminate].
Qed.

(** X4: a successful response whose body is not JSON gives the empty
    list and the line about the response format, once. *)
Lemma fetch_undecodable keyword lang w status text :
  answer keyword lang w = NetResponse status text ->
  status_ok status = true ->
  json_loads text = None ->
  fetch keyword lang w =
    (Return (PyList []),
     emit (Printed "❌ Unexpected response format from Google.")
       (emit (Requested (url_of keyword lang)) w)).
Proof.
  unfold answer. intros Hnet Hok Hjson.
  unfold get_google_autocomplete, try_except, bind, http_get.
  rewrite Hnet. rewrite (raise_for_status_ok _ _ _ Hok).
  unfold loads. rewrite Hjson. reflexivity.
Qed.

(** X5: a successful response whose body is a JSON array of fewer than
    two elements gives the empty list and the line about the response
    format, once. *)
Lemma fetch_short_array keyword lang w status text l :
  answer keyword lang w = NetResponse status text ->
  status_ok status = true ->
  json_loads text = Some (PyList l) ->
  (List.length l < 2)%nat ->
  fetch keyword lang w =
    (Return (PyList []),
     emit (Printed "❌ Unexpected response format from Google.")
       (emit (Requested (url_of keyword lang)) w)).
Proof.
  intros Hnet Hok Hjson Hlen.
  rewrite (fetch_decoded _ _ _ _ _ _ Hnet Hok Hjson). cbn.
  destruct l as [ | a [ | b l']]; cbn in *; try reflexivity. lia.
Qed.

(** C10: when the body of a successful response decodes to an array of
    at least two elements, [get_google_autocomplete] returns the
    element at index 1 as decoded, whatever its shape, and prints
    nothing. *)
Theorem fetch_returns_second_element keyword lang w status text first second rest :
  answer keyword lang w = NetResponse status text ->
  status_ok status = true ->
  json_loads text = Some (PyList (first :: second :: rest)) ->
  fetch keyword lang w =
    (Return second, emit (Requested (url_of keyword lang)) w).
Proof.
  intros Hnet Hok Hjson.
  rewrite (fetch_decoded _ _ _ _ _ _ Hnet Hok Hjson). reflexivity.
Qed.

(** C2: when the body of a successful response is the two-element array
    [[k, [s1, s2, ...]]], [get_google_autocomplete] returns the list
    [[s1, s2, ...]] as it is; the first element plays no part. *)
Theorem fetch_returns_suggestion_list keyword lang w status text echoed
    (suggestions : list string) :
  answer keyword lang w = NetResponse status text ->
  status_ok status = true ->
  json_loads text = Some (PyList [echoed; PyList (map PyStr suggestions)]) ->
  fetch keyword lang w =
    (Return (PyList (map PyStr suggestions)),
     emit (Requested (url_of keyword lang)) w).
Proof.
  intros Hnet Hok Hjson.
  rewrite (fetch_decoded _ _ _ _ _ _ Hnet Hok Hjson). reflexivity.
Qed.

(** C1, where the code departs from it: a successful response whose
    body decodes to a JSON object makes [get_google_autocomplete]
    raise [KeyError] to its caller; no message is printed and no empty
    list is returned. *)
Theorem fetch_object_body_raises keyword lang w status text d :
  answer keyword lang w = NetResponse status text ->
  status_ok status = true ->
  json_loads text = Some (PyDict d) ->
  fetch keyword lang w =
    (Raise KeyError, emit (Requested (url_of keyword lang)) w).
Proof.
  intros Hnet Hok Hjson.
  rewrite (fetch_decoded _ _ _ _ _ _ Hnet Hok Hjson). reflexivity.
Qed.

(** The same for a body that is a number, a literal or any other
    object without subscript. *)
Lemma fetch_scalar_body_raises keyword lang w status text parsed :
  answer keyword lang w = NetResponse status text ->
  status_ok status = true ->
  json_loads text = Some parsed ->
  getitem_int parsed 1 = Raise TypeError ->
  fetch keyword lang w =
    (Raise TypeError, emit (Requested (url_of keyword lang)) w).
Proof.
  intros Hnet Hok Hjson Hsub.
  rewrite (fetch_decoded _ _ _ _ _ _ Hnet Hok Hjson), Hsub. reflexivity.
Qed.

End Fetcher.

Lemma fetch_returns_second_element_witness :
  Ref.fetch (Ref.always (NetResponse 200 "[1, 7, 3]")) "cat" (PyStr "en") (fresh_world [])
  = (Return (PyInt 7),
     emit (Requested (fetch_url Ref.py_repr "cat" (PyStr "en"))) (fresh_world [])).
Proof.
  apply (fetch_returns_second_element Ref.json_loads
           (Ref.always (NetResponse 200 "[1, 7, 3]")) Ref.http_error_text Ref.py_repr
           "cat" (PyStr "en") (fresh_world []) 200 "[1, 7, 3]"
           (PyInt 1) (PyInt 7) [PyInt 3]).
  - reflexivity.
  - reflexivity.
  - vm_compute. reflexivity.
Defined.

Lemma fetch_returns_suggestion_list_witness :
  Ref.fetch (Ref.always (NetResponse 200 Ref.cat_body)) "cat" (PyStr "en") (fresh_world [])
  = (Return (PyList [PyStr "cat food"; PyStr "cats"]),
     emit (Requested (fetch_url Ref.py_repr "cat" (PyStr "en"))) (fresh_world [])).
Proof.
  apply (fetch_returns_suggestion_list Ref.json_loads
           (Ref.always (NetResponse 200 Ref.cat_body)) Ref.http_error_text Ref.py_repr
           "cat" (PyStr "en") (fresh_world []) 200 Ref.cat_body
           (PyStr "cat") ["cat food"; "cats"]).
  - reflexivity.
  - reflexivity.
  - vm_compute. reflexivity.
Defined.

Lemma fetch_object_body_raises_witness :
  Ref.fetch (Ref.always (NetResponse 200 "{}")) "cat" (PyStr "en") (fresh_world [])
  = (Raise KeyError,
     emit (Requested (fetch_url Ref.py_repr "cat" (PyStr "en"))) (fresh_world [])).
Proof.
  apply (fetch_object_body_raises Ref.json_loads
           (Ref.always (NetResponse 200 "{}")) Ref.http_error_text Ref.py_repr
           "cat" (PyStr "en") (fresh_world []) 200 "{}" []).
  - reflexivity.
  - reflexivity.
  - vm_compute. reflexivity.
Defined.

(** A body that is a bare number or [null] ends the call with
    [TypeError] in the same way. *)
Example fetch_number_body_raises :
  fst (Ref.fetch (Ref.always (NetResponse 200 "5")) "cat" (PyStr "en") (fresh_world []))
  = Raise TypeError
  /\ fst (Ref.fetch (Ref.always (NetResponse 200 "null")) "cat" (PyStr "en") (fresh_world []))
     = Raise TypeError.
Proof. split; vm_compute; reflexivity. Qed.

(** ** Properties of the direction processor and of the display *)

Lemma emit_emit_all (e : io_event) (es : list io_event) (w : world) :
  emit e (emit_all es w) = emit_all (es ++ [e]) w.
Proof. unfold emit, emit_all. cbn. now rewrite app_assoc. Qed.

Lemma emit_all_emit (e : io_event) (es : list io_event) (w : world) :
  emit_all es (emit e w) = emit_all (e :: es) w.
Proof. unfold emit, emit_all. cbn. now rewrite <- app_assoc. Qed.

Lemma emit_all_nil (w : world) : emit_all [] w = w.
Proof. destruct w. unfold emit_all. cbn. now rewrite app_nil_r. Qed.

Lemma emit_as_emit_all (e : io_event) (w : world) : emit e w = emit_all [e] w.
Proof. reflexivity. Qed.

(** Two worlds built by appending to the same trace are the same. *)
Ltac world_eq :=
  unfold emit, emit_all; cbn [stdin trace files];
  repeat rewrite <- app_assoc; cbn [app]; reflexivity.

Section Display.

Variable reshape : value -> outcome value.
Variable get_display : value -> outcome value.
Variable py_repr : value -> string.

Local Abbreviation process := (process_rtl_text reshape get_display).
Local Abbreviation display := (display_suggestions reshape get_display py_repr).

(** C9: with the right-to-left flag false, [process_rtl_text] returns
    the text it was given. *)
Theorem process_rtl_text_ltr_identity (s : string) :
  process (PyStr s) (PyBool false) = Return (PyStr s).
Proof. reflexivity. Qed.

(** The same for any object and any flag that counts as false. *)
Lemma process_rtl_text_falsy (text is_rtl : value) :
  truthy is_rtl = false -> process text is_rtl = Return text.
Proof. unfold process_rtl_text. now intros ->. Qed.

Lemma process_rtl_text_truthy (text is_rtl : value) :
  truthy is_rtl = true ->
  process text is_rtl = obind (reshape text) get_display.
Proof. unfold process_rtl_text. now intros ->. Qed.

(** The [for] loop of [display_suggestions] prints the processed
    suggestions behind their ranks. *)
Lemma display_loop (is_rtl : value) (suggestions shown : list string) :
  Forall2 (fun s p => process (PyStr s) is_rtl = Return (PyStr p))
    suggestions shown ->
  forall (first : nat) (w : world),
    for_each (enumerate (map PyStr suggestions) first)
      (fun '(i, suggestion) =>
         processed_suggestion <- lift (process suggestion is_rtl) ;;
         print (Text.format_2d i ++ ". " ++ py_str py_repr processed_suggestion)) w
    = (Return tt, emit_all (ranked first shown) w).
Proof.
  induction 1 as [ | s p ss ps Hs _ IH]; intros first w.
  - cbn. now rewrite emit_all_nil.
  - cbn [map enumerate for_each]. unfold bind at 1. unfold bind at 1.
    unfold lift at 1. rewrite Hs. unfold print at 1.
    rewrite IH. rewrite emit_all_emit. reflexivity.
Qed.

(** C5, as amended: [display_suggestions] prints a header naming the
    processed keyword and a rule; for an empty list it then prints the
    line [No suggestions found.] in place of both the enumeration and
    the count; otherwise it prints every suggestion, processed like the
    keyword, behind its rank counted from 1, and last the number of
    suggestions. *)
Theorem display_suggestions_prints (keyword shown_keyword : string)
    (suggestions shown : list string) (is_rtl : value) (w : world) :
  process (PyStr keyword) is_rtl = Return (PyStr shown_keyword) ->
  Forall2 (fun s p => process (PyStr s) is_rtl = Return (PyStr p))
    suggestions shown ->
  display (PyStr keyword) (PyList (map PyStr suggestions)) is_rtl w =
    (Return tt,
     emit_all
       ([Printed (Text.nl ++ "🔍 Autocomplete suggestions for '" ++ shown_keyword ++ "':");
         Printed (Text.repeat_str "=" (Text.len shown_keyword + 35))]
        ++ match suggestions with
           | [] => [Printed "No suggestions found."]
           | _ :: _ =>
               ranked 1 shown
               ++ [Printed (Text.nl ++ "Found "
                            ++ Text.string_of_nat (List.length suggestions)
                            ++ " suggestion(s)")]
           end) w).
Proof.
  intros Hk Hs. unfold display_suggestions.
  unfold bind at 1. unfold lift at 1. rewrite Hk.
  unfold bind at 1. unfold print at 1.
  unfold bind at 1. unfold lift at 1. cbn [py_len py_str].
  unfold bind at 1. unfold print at 1.
  destruct Hs as [ | s p ss ps Hs Hss].
  - cbn. unfold print. world_eq.
  - assert (Hall : Forall2 (fun s p => process (PyStr s) is_rtl = Return (PyStr p))
                     (s :: ss) (p :: ps)) by now constructor.
    cbn [map truthy negb py_iter].
    unfold bind at 1. unfold lift at 1.
    unfold bind at 1. rewrite (display_loop _ _ _ Hall).
    unfold bind at 1. unfold lift at 1. cbn [py_len].
    unfold print. cbn [List.length]. rewrite length_map. world_eq.
Qed.

End Display.

(** ** Properties of the session: configuration, prompts and the loop *)

Section Session.

Variable json_loads : string -> option value.
Variable json_dumps : value -> string.
Variable requests_get : nat -> string -> net_result.
Variable http_error_text : Z -> string -> string.
Variable reshape : value -> outcome value.
Variable get_display : value -> outcome value.
Variable py_repr : value -> string.

Local Abbreviation load := (load_language_config json_loads json_dumps).
Local Abbreviation choose := (get_language_choice json_loads json_dumps py_repr).
Local Abbreviation process := (process_rtl_text reshape get_display).
Local Abbreviation fetch :=
  (get_google_autocomplete json_loads requests_get http_error_text py_repr).
Local Abbreviation display := (display_suggestions reshape get_display py_repr).
Local Abbreviation turn :=
  (loop_body json_loads json_dumps requests_get http_error_text reshape
     get_display py_repr).
Local Abbreviation program :=
  (main json_loads json_dumps requests_get http_error_text reshape
     get_display py_repr).

Lemma load_missing (w : world) :
  files w config_path = None ->
  load w = (Return default_config,
            write_file config_path (json_dumps default_config) w).
Proof. unfold load_language_config. now intros ->. Qed.

Lemma load_existing (w : world) (text : string) (v : value) :
  files w config_path = Some text ->
  json_loads text = Some v ->
  load w = (Return v, w).
Proof. unfold load_language_config. now intros -> ->. Qed.

Lemma load_undecodable (w : world) (text : string) :
  files w config_path = Some text ->
  json_loads text = None ->
  load w = (Raise JSONDecodeError, w).
Proof. unfold load_language_config. now intros -> ->. Qed.

(** C4: [load_language_config], when there is no file at the path,
    returns the table with English (not right-to-left) under key 1 and
    Hebrew (right-to-left) under key 2, having written its encoding to
    the path and touched nothing else; when the file is there and
    decodes, it returns what the file decodes to and changes nothing;
    when the file is there and does not decode, it raises the decode
    error, which [get_language_choice] passes on to its own caller. *)
Theorem load_language_config_cases (w : world) :
  (files w config_path = None ->
   exists w',
     load w =
       (Return
          (PyDict [("languages", PyDict [
             ("1", PyDict [("code", PyStr "en"); ("name", PyStr "English");
                           ("rtl", PyBool false)]);
             ("2", PyDict [("code", PyStr "he"); ("name", PyStr "Hebrew");
                           ("rtl", PyBool true)])])]), w')
     /\ files w' config_path = Some (json_dumps default_config)
     /\ (forall p, p <> config_path -> files w' p = files w p)
     /\ stdin w' = stdin w /\ trace w' = trace w)
  /\ (forall text v,
        files w config_path = Some text ->
        json_loads text = Some v ->
        load w = (Return v, w))
  /\ (forall text,
        files w config_path = Some text ->
        json_loads text = None ->
        load w = (Raise JSONDecodeError, w)
        /\ choose w = (Raise JSONDecodeError, w)).
Proof.
  split; [ | split].
  - intros Hnone. eexists. split; [ | split; [ | split; [ | split]]].
    + rewrite (load_missing _ Hnone). reflexivity.
    + reflexivity.
    + intros p Hp. unfold write_file. cbn [files].
      apply String.eqb_neq in Hp. now rewrite Hp.
    + reflexivity.
    + reflexivity.
  - intros text v. apply load_existing.
  - intros text Hfile Hjson. split.
    + now apply load_undecodable with text.
    + unfold get_language_choice, bind.
      now rewrite (load_undecodable _ _ Hfile Hjson).
Qed.

Lemma is_empty_spec (s : string) : Text.is_empty s = true <-> s = EmptyString.
Proof. destruct s; cbn; split; congruence. Qed.

Lemma is_empty_false (s : string) : s <> EmptyString -> Text.is_empty s = false.
Proof. destruct s; cbn; congruence. Qed.

(** One answer at the prompt of the selection loop, over any table. *)
Lemma prompt_language_turn languages (line : string) (rest : list tty_event)
    (w : world) :
  stdin w = Line line :: rest ->
  let choice := Text.strip line in
  let asked := mkWorld rest (trace w ++ [Prompted choice_prompt]) (files w) in
  (choice = EmptyString ->
   prompt_language languages w = (Return (PyStr "en", PyBool false), asked))
  /\ (choice <> EmptyString ->
      dict_get choice languages = None ->
      prompt_language languages w =
        prompt_language languages
          (emit (Printed "❌ Invalid choice. Please enter a number between 1-2.") asked))
  /\ (forall entry code rtl,
        choice <> EmptyString ->
        dict_get choice languages = Some entry ->
        getitem_str entry "code" = Return code ->
        getitem_str entry "rtl" = Return rtl ->
        prompt_language languages w = (Return (code, rtl), asked)).
Proof.
  intros Hin choice asked.
  assert (Hstep : prompt_language languages w =
            if Text.is_empty choice then (Return (PyStr "en", PyBool false), asked)
            else match dict_get choice languages with
                 | Some lang_info =>
                     (code <- lift (getitem_str lang_info "code") ;;
                      rtl <- lift (getitem_str lang_info "rtl") ;;
                      ret (code, rtl)) asked
                 | None =>
                     (print "❌ Invalid choice. Please enter a number between 1-2." ;;
                      choice_loop (S (List.length rest)) languages) asked
                 end).
  { unfold prompt_language. rewrite Hin. cbn [List.length choice_loop].
    unfold bind at 1. unfold input. cbn [stdin trace files emit]. rewrite Hin.
    fold choice. destruct (Text.is_empty choice); [reflexivity | ].
    destruct (dict_get choice languages); reflexivity. }
  split; [ | split].
  - intros Hblank. rewrite Hstep.
    apply is_empty_spec in Hblank. now rewrite Hblank.
  - intros Hsome Hnone. rewrite Hstep.
    rewrite (is_empty_false _ Hsome), Hnone. reflexivity.
  - intros entry code rtl Hsome Hentry Hcode Hrtl. rewrite Hstep.
    rewrite (is_empty_false _ Hsome), Hentry.
    unfold bind, lift. now rewrite Hcode, Hrtl.
Qed.

(** What the question after a query hands back to the loop. *)
Lemma ask_continue_answer (lang is_rtl : value) (reply : string)
    (rest : list tty_event) (w : world) :
  stdin w = Line reply :: rest ->
  let asked := mkWorld rest (trace w ++ [Prompted continue_prompt]) (files w) in
  ask_continue lang is_rtl w =
    if Text.mem (Text.lower (Text.strip reply)) ["n"; "no"]
    then (Return Break,
          emit (Printed (Text.nl ++ "👋 Thanks for using Google Autocomplete Tool!")) asked)
    else (Return (Continue lang is_rtl), asked).
Proof.
  intros Hin asked. unfold ask_continue.
  unfold bind at 1. unfold input. cbn [stdin trace files emit]. rewrite Hin.
  fold asked.
  destruct (Text.mem (Text.lower (Text.strip reply)) ["n"; "no"]); reflexivity.
Qed.

End Session.

(** ** The main loop and the interrupt key *)

Section Loop.

Variable json_loads : string -> option value.
Variable json_dumps : value -> string.
Variable requests_get : nat -> string -> net_result.
Variable http_error_text : Z -> string -> string.
Variable reshape : value -> outcome value.
Variable get_display : value -> outcome value.
Variable py_repr : value -> string.

Local Abbreviation turn :=
  (loop_body json_loads json_dumps requests_get http_error_text reshape
     get_display py_repr).
Local Abbreviation loop :=
  (main_loop json_loads json_dumps requests_get http_error_text reshape
     get_display py_repr).
Local Abbreviation session :=
  (run json_loads json_dumps requests_get http_error_text reshape
     get_display py_repr).

(** C3, where the code departs from it: the interrupt key pressed at
    the first language prompt ends the program with an uncaught
    [KeyboardInterrupt]; the last thing on the terminal is the prompt,
    no goodbye line is printed and the exit status is not the one of
    [sys.exit(0)]. *)
Theorem interrupt_at_first_prompt_uncaught (rest : list tty_event) :
  session (fresh_world (CtrlC :: rest)) =
    (Traceback KeyboardInterrupt,
     [Printed "🚀 Google Autocomplete Suggestion Tool";
      Printed "========================================";
      Printed (Text.nl ++ "🌐 Select language:");
      Printed "1 . English (en)";
      Printed "2 . Hebrew (he)";
      Prompted choice_prompt]).
Proof. reflexivity. Qed.

(** Inside the loop the handler of [main] is in force: the interrupt
    key at the keyword prompt prints the goodbye line and leaves by
    [sys.exit(0)]. *)
Lemma interrupt_at_keyword_prompt (fuel : nat) (lang is_rtl : value)
    (rest : list tty_event) (w : world) :
  stdin w = CtrlC :: rest ->
  loop (S fuel) lang is_rtl w =
    (Raise KeyboardInterrupt,
     mkWorld rest (trace w ++ [Printed turn_rule; Prompted keyword_prompt]) (files w)).
Proof.
  intros Hin. cbn [main_loop]. unfold bind at 1. unfold loop_body.
  unfold bind at 1. unfold print at 1.
  unfold bind at 1. unfold input. cbn [stdin trace files emit]. rewrite Hin.
  rewrite <- app_assoc. reflexivity.
Qed.

Lemma interrupt_after_selection (rest : list tty_event) :
  session (fresh_world (Line EmptyString :: CtrlC :: rest)) =
    (Exited 0,
     [Printed "🚀 Google Autocomplete Suggestion Tool";
      Printed "========================================";
      Printed (Text.nl ++ "🌐 Select language:");
      Printed "1 . English (en)";
      Printed "2 . Hebrew (he)";
      Prompted choice_prompt;
      Printed (Text.nl ++ "✅ Language set to: en");
      Printed (Text.nl ++ "💡 Tips:");
      Printed "  - Type 'quit', 'exit', or 'q' to exit";
      Printed "  - Type 'lang' to change language";
      Printed "  - Press Ctrl+C to exit anytime";
      Printed turn_rule;
      Prompted keyword_prompt;
      Printed (Text.nl ++ Text.nl ++ "👋 Exiting... Goodbye!")]).
Proof. reflexivity. Qed.

(** One turn decides how the loop goes on: [Break] ends it, [Continue]
    starts the next turn with the binding the turn returned. *)
Lemma main_loop_turn (fuel : nat) (lang is_rtl : value) (w : world) :
  loop (S fuel) lang is_rtl w =
    match turn lang is_rtl w with
    | (Return Break, w') => (Return tt, w')
    | (Return (Continue lang' is_rtl'), w') => loop fuel lang' is_rtl' w'
    | (Raise e, w') => (Raise e, w')
    | (OutOfFuel, w') => (OutOfFuel, w')
    end.
Proof.
  cbn [main_loop]. unfold bind.
  destruct (turn lang is_rtl w) as [[[lang' is_rtl' | ] | e | ] w']; reflexivity.
Qed.

End Loop.

(** A whole session: Hebrew selected, one query, and [n] at the question
    ends the program with status 0. *)
Example session_hebrew :
  Ref.session
    (Ref.always (NetResponse 200
       ("[" ++ Ref.dq ++ "שלום" ++ Ref.dq ++ ", [" ++ Ref.dq ++ "שלום עולם"
        ++ Ref.dq ++ "]]")))
    (fresh_world [Line "2"; Line "שלום"; Line "n"])
  = (Exited 0,
     [Printed "🚀 Google Autocomplete Suggestion Tool";
      Printed "========================================";
      Printed (Text.nl ++ "🌐 Select language:");
      Printed "1 . English (en)";
      Printed "2 . Hebrew (he)";
      Prompted choice_prompt;
      Printed (Text.nl ++ "✅ Language set to: he");
      Printed (Text.nl ++ "💡 Tips:");
      Printed "  - Type 'quit', 'exit', or 'q' to exit";
      Printed "  - Type 'lang' to change language";
      Printed "  - Press Ctrl+C to exit anytime";
      Printed turn_rule;
      Prompted keyword_prompt;
      Printed (Text.nl ++ "⏳ Fetching suggestions for 'םולש'...");
      Requested
        "http://suggestqueries.google.com/complete/search?client=firefox&q=%D7%A9%D7%9C%D7%95%D7%9D&hl=he";
      Printed (Text.nl ++ "🔍 Autocomplete suggestions for 'םולש':");
      Printed "=======================================";
      Printed " 1. םלוע םולש";
      Printed (Text.nl ++ "Found 1 suggestion(s)");
      Prompted continue_prompt;
      Printed (Text.nl ++ "👋 Thanks for using Google Autocomplete Tool!")]).
Proof. vm_compute. reflexivity. Qed.

(** A failed fetch does not end the session: the message is printed, the
    empty list displayed and the question asked. *)
Example session_timeout :
  Ref.session (Ref.always NetTimeout) (fresh_world [Line "1"; Line "cat"; Line "No"])
  = (Exited 0,
     [Printed "🚀 Google Autocomplete Suggestion Tool";
      Printed "========================================";
      Printed (Text.nl ++ "🌐 Select language:");
      Printed "1 . English (en)";
      Printed "2 . Hebrew (he)";
      Prompted choice_prompt;
      Printed (Text.nl ++ "✅ Language set to: en");
      Printed (Text.nl ++ "💡 Tips:");
      Printed "  - Type 'quit', 'exit', or 'q' to exit";
      Printed "  - Type 'lang' to change language";
      Printed "  - Press Ctrl+C to exit anytime";
      Printed turn_rule;
      Prompted keyword_prompt;
      Printed (Text.nl ++ "⏳ Fetching suggestions for 'cat'...");
      Requested
        "http://suggestqueries.google.com/complete/search?client=firefox&q=cat&hl=en";
      Printed "❌ Request timed out. Please check your internet connection.";
      Printed (Text.nl ++ "🔍 Autocomplete suggestions for 'cat':");
      Printed "======================================";
      Printed "No suggestions found.";
      Prompted continue_prompt;
      Printed (Text.nl ++ "👋 Thanks for using Google Autocomplete Tool!")]).
Proof. vm_compute. reflexivity. Qed.

(** A body that decodes to an object ends the whole program with the
    [KeyError] nobody caught. *)
Example session_object_body :
  fst (Ref.session (Ref.always (NetResponse 200 "{}"))
         (fresh_world [Line "1"; Line "cat"; Line "n"]))
  = Traceback KeyError.
Proof. vm_compute. reflexivity. Qed.

(** The interrupt key during a change of language, which runs the same
    selection inside the loop, is handled as well. *)
Example interrupt_at_language_change :
  Ref.session (Ref.always NetTimeout)
    (fresh_world [Line EmptyString; Line "lang"; CtrlC])
  = (Exited 0,
     [Printed "🚀 Google Autocomplete Suggestion Tool";
      Printed "========================================";
      Printed (Text.nl ++ "🌐 Select language:");
      Printed "1 . English (en)";
      Printed "2 . Hebrew (he)";
      Prompted choice_prompt;
      Printed (Text.nl ++ "✅ Language set to: en");
      Printed (Text.nl ++ "💡 Tips:");
      Printed "  - Type 'quit', 'exit', or 'q' to exit";
      Printed "  - Type 'lang' to change language";
      Printed "  - Press Ctrl+C to exit anytime";
      Printed turn_rule;
      Prompted keyword_prompt;
      Printed (Text.nl ++ "🌐 Select language:");
      Printed "1 . English (en)";
      Printed "2 . Hebrew (he)";
      Prompted choice_prompt;
      Printed (Text.nl ++ Text.nl ++ "👋 Exiting... Goodbye!")]).
Proof. vm_compute. reflexivity. Qed.

(** ** The theorems at concrete inputs *)

Lemma load_language_config_cases_witness :
  fst (Ref.load (fresh_world [])) = Return default_config
  /\ Ref.load (Ref.with_config Ref.empty_table [])
     = (Return (PyDict [("languages", PyDict [])]), Ref.with_config Ref.empty_table [])
  /\ Ref.choose (Ref.with_config "not json" [])
     = (Raise JSONDecodeError, Ref.with_config "not json" []).
Proof.
  split; [ | split].
  - destruct (load_language_config_cases Ref.json_loads Ref.json_dumps Ref.py_repr
                (fresh_world [])) as [Hmissing _].
    destruct (Hmissing eq_refl) as (w' & Hload & _).
    unfold Ref.load. rewrite Hload. reflexivity.
  - destruct (load_language_config_cases Ref.json_loads Ref.json_dumps Ref.py_repr
                (Ref.with_config Ref.empty_table [])) as (_ & Hvalid & _).
    apply (Hvalid Ref.empty_table).
    + reflexivity.
    + vm_compute. reflexivity.
  - destruct (load_language_config_cases Ref.json_loads Ref.json_dumps Ref.py_repr
                (Ref.with_config "not json" [])) as (_ & _ & Hbad).
    apply (Hbad "not json").
    + reflexivity.
    + vm_compute. reflexivity.
Defined.

Lemma display_suggestions_prints_witness :
  Ref.display (PyStr "שלום") (PyList [PyStr "שלום עולם"]) (PyBool true) (fresh_world [])
  = (Return tt,
     emit_all
       [Printed (Text.nl ++ "🔍 Autocomplete suggestions for 'םולש':");
        Printed "=======================================";
        Printed " 1. םלוע םולש";
        Printed (Text.nl ++ "Found 1 suggestion(s)")]
       (fresh_world [])).
Proof.
  apply (display_suggestions_prints Ref.reshape Ref.get_display Ref.py_repr
           "שלום" "םולש" ["שלום עולם"] ["םלוע םולש"] (PyBool true) (fresh_world [])).
  - vm_compute. reflexivity.
  - constructor; [vm_compute; reflexivity | constructor].
Defined.

(** ** The loops come to an end

    Every turn of either loop reads a terminal event, so the fuel the
    program gives its loops, one more than the events pending, is never
    used up: the program always ends, by returning or by an exception. *)

Lemma tame_ret {A} (a : A) : tame (ret a).
Proof. intros w. split; [discriminate | apply le_n]. Qed.

Lemma tame_raise {A} (e : exn) : tame (@raise A e).
Proof. intros w. split; [discriminate | apply le_n]. Qed.

Lemma tame_lift {A} (o : outcome A) : o <> OutOfFuel -> tame (lift o).
Proof. intros Ho w. split; [exact Ho | apply le_n]. Qed.

Lemma tame_print (text : string) : tame (print text).
Proof. intros w. split; [discriminate | apply le_n]. Qed.

Lemma tame_input (prompt : string) : tame (input prompt).
Proof.
  intros [typed t f]. unfold tame_at, input. cbn.
  destruct typed as [ | [line | ] rest]; cbn; split; (discriminate || lia).
Qed.

Lemma consuming_input (prompt : string) : consuming (input prompt).
Proof.
  intros [typed t f] a w'. unfold input. cbn.
  destruct typed as [ | [line | ] rest]; cbn; intros H; inversion H; subst; cbn; lia.
Qed.

Lemma tame_at_bind {A B} (m : M A) (k : A -> M B) (w : world) :
  tame_at m w ->
  (forall a w1, m w = (Return a, w1) -> tame_at (k a) w1) ->
  tame_at (bind m k) w.
Proof.
  intros [Hend Hlen] Hk. unfold tame_at, bind in *.
  destruct (m w) as [[a | e | ] w1]; cbn in *.
  - destruct (Hk a w1 eq_refl) as [Hend' Hlen']. split; [exact Hend' | lia].
  - split; [discriminate | exact Hlen].
  - now contradiction Hend.
Qed.

Lemma tame_bind {A B} (m : M A) (k : A -> M B) :
  tame m -> (forall a, tame (k a)) -> tame (bind m k).
Proof.
  intros Hm Hk w. apply tame_at_bind; [apply Hm | intros a w1 _; apply Hk].
Qed.

Lemma consuming_bind_l {A B} (m : M A) (k : A -> M B) :
  consuming m -> (forall a, tame (k a)) -> consuming (bind m k).
Proof.
  intros Hm Hk w b w'. unfold bind.
  destruct (m w) as [[a | e | ] w1] eqn:Em; try discriminate.
  intros Hk'. specialize (Hm w a w1 Em).
  destruct (Hk a w1) as [_ Hlen]. rewrite Hk' in Hlen. cbn in Hlen. lia.
Qed.

Lemma consuming_bind_r {A B} (m : M A) (k : A -> M B) :
  tame m -> (forall a, consuming (k a)) -> consuming (bind m k).
Proof.
  intros Hm Hk w b w'. unfold bind. destruct (Hm w) as [_ Hlen].
  destruct (m w) as [[a | e | ] w1] eqn:Em; try discriminate.
  intros Hk'. specialize (Hk a w1 b w' Hk'). cbn in Hlen. lia.
Qed.

Lemma tame_for_each {A} (xs : list A) (body : A -> M unit) :
  (forall x, tame (body x)) -> tame (for_each xs body).
Proof.
  intros Hbody. induction xs as [ | x xs IH]; cbn.
  - apply tame_ret.
  - apply tame_bind; [apply Hbody | intros _; exact IH].
Qed.

Lemma tame_try_except {A} (m : M A) (h : exn -> option (M A)) :
  tame m -> (forall e k, h e = Some k -> tame k) -> tame (try_except m h).
Proof.
  intros Hm Hh w. destruct (Hm w) as [Hend Hlen]. unfold tame_at, try_except.
  destruct (m w) as [[a | e | ] w1]; cbn in *.
  - split; [discriminate | exact Hlen].
  - destruct (h e) as [k | ] eqn:Eh.
    + destruct (Hh e k Eh w1) as [Hend' Hlen']. split; [exact Hend' | lia].
    + split; [discriminate | exact Hlen].
  - now contradiction Hend.
Qed.

Lemma getitem_int_ends (v : value) (i : nat) : getitem_int v i <> OutOfFuel.
Proof.
  destruct v as [ | | | | s | l | d]; cbn; try discriminate.
  - destruct (nth_error (Text.chars s) i); discriminate.
  - destruct (nth_error l i); discriminate.
Qed.

Lemma getitem_str_ends (v : value) (k : string) : getitem_str v k <> OutOfFuel.
Proof.
  destruct v as [ | | | | s | l | d]; cbn; try discriminate.
  destruct (dict_get k d); discriminate.
Qed.

Lemma dict_items_ends (v : value) : dict_items v <> OutOfFuel.
Proof. destruct v; discriminate. Qed.

Lemma py_len_ends (v : value) : py_len v <> OutOfFuel.
Proof. destruct v; discriminate. Qed.

Lemma py_iter_ends (v : value) : py_iter v <> OutOfFuel.
Proof. destruct v; discriminate. Qed.

Lemma tame_choice_loop (languages : list (string * value)) (fuel : nat) (w : world) :
  (List.length (stdin w) < fuel)%nat ->
  tame_at (choice_loop fuel languages) w.
Proof.
  revert w. induction fuel as [ | fuel IH]; intros w Hfuel; [lia | ].
  cbn [choice_loop].
  apply tame_at_bind; [apply tame_input | intros line w1 Hline].
  apply consuming_input in Hline.
  destruct (Text.is_empty (Text.strip line)); [apply tame_ret | ].
  destruct (dict_get (Text.strip line) languages) as [lang_info | ].
  - apply tame_bind; [apply tame_lift, getitem_str_ends | intros code].
    apply tame_bind; [apply tame_lift, getitem_str_ends | intros rtl].
    apply tame_ret.
  - apply tame_at_bind; [apply tame_print | intros u w2 Hprint].
    apply IH. inversion Hprint; subst. cbn. lia.
Qed.

Lemma tame_prompt_language (languages : list (string * value)) :
  tame (prompt_language languages).
Proof. intros w. apply tame_choice_loop. lia. Qed.

Lemma tame_ask_continue (lang is_rtl : value) : tame (ask_continue lang is_rtl).
Proof.
  unfold ask_continue. apply tame_bind; [apply tame_input | intros reply].
  destruct (Text.mem (Text.lower (Text.strip reply)) ["n"; "no"]).
  - apply tame_bind; [apply tame_print | intros _; apply tame_ret].
  - apply tame_ret.
Qed.

Section Totality.

Variable json_loads : string -> option value.
Variable json_dumps : value -> string.
Variable requests_get : nat -> string -> net_result.
Variable http_error_text : Z -> string -> string.
Variable reshape : value -> outcome value.
Variable get_display : value -> outcome value.
Variable py_repr : value -> string.

(** The two library calls of the direction processor come back. *)
Hypothesis reshape_ends : forall v, reshape v <> OutOfFuel.
Hypothesis get_display_ends : forall v, get_display v <> OutOfFuel.

Local Abbreviation process := (process_rtl_text reshape get_display).
Local Abbreviation choose := (get_language_choice json_loads json_dumps py_repr).
Local Abbreviation fetch :=
  (get_google_autocomplete json_loads requests_get http_error_text py_repr).
Local Abbreviation display := (display_suggestions reshape get_display py_repr).
Local Abbreviation turn :=
  (loop_body json_loads json_dumps requests_get http_error_text reshape
     get_display py_repr).
Local Abbreviation loop :=
  (main_loop json_loads json_dumps requests_get http_error_text reshape
     get_display py_repr).
Local Abbreviation program :=
  (main json_loads json_dumps requests_get http_error_text reshape
     get_display py_repr).

Lemma process_ends (text is_rtl : value) : process text is_rtl <> OutOfFuel.
Proof.
  unfold process_rtl_text. destruct (truthy is_rtl); [ | discriminate].
  pose proof (reshape_ends text) as Hr.
  destruct (reshape text) as [r | e | ]; cbn;
    [apply get_display_ends | discriminate | exact Hr].
Qed.

Lemma tame_load : tame (load_language_config json_loads json_dumps).
Proof.
  intros w. unfold tame_at, load_language_config.
  destruct (files w config_path) as [text | ]; cbn.
  - destruct (json_loads text); cbn; split; (discriminate || lia).
  - split; (discriminate || lia).
Qed.

Lemma tame_choose : tame choose.
Proof.
  unfold get_language_choice.
  apply tame_bind; [apply tame_load | intros config].
  apply tame_bind; [apply tame_lift, getitem_str_ends | intros languages].
  apply tame_bind; [apply tame_print | intros _].
  apply tame_bind; [apply tame_lift, dict_items_ends | intros items].
  apply tame_bind; [ | intros _; apply tame_prompt_language].
  apply tame_for_each. intros [key lang_info].
  apply tame_bind; [apply tame_lift, getitem_str_ends | intros name].
  apply tame_bind; [apply tame_lift, getitem_str_ends | intros code].
  apply tame_print.
Qed.

Lemma tame_http_get (url : string) : tame (http_get requests_get url).
Proof.
  intros w. unfold tame_at, http_get.
  destruct (requests_get (requests_made (trace w)) url); cbn; split;
    (discriminate || lia).
Qed.

Lemma tame_fetch (keyword : string) (lang : value) : tame (fetch keyword lang).
Proof.
  unfold get_google_autocomplete. apply tame_try_except.
  - apply tame_bind; [apply tame_http_get | intros [status text]].
    apply tame_bind.
    + unfold raise_for_status.
      destruct ((400 <=? status) && (status <? 600))%Z;
        [apply tame_raise | apply tame_ret].
    + intros _. apply tame_bind.
      * unfold loads. destruct (json_loads text); [apply tame_ret | apply tame_raise].
      * intros parsed.
        apply tame_bind; [apply tame_lift, getitem_int_ends | intros x; apply tame_ret].
  - intros e k Hk.
    destruct e; inversion Hk; subst;
      (apply tame_bind; [apply tame_print | intros _; apply tame_ret]).
Qed.

Lemma tame_display (keyword suggestions is_rtl : value) :
  tame (display keyword suggestions is_rtl).
Proof.
  unfold display_suggestions.
  apply tame_bind; [apply tame_lift, process_ends | intros processed_keyword].
  apply tame_bind; [apply tame_print | intros _].
  apply tame_bind; [apply tame_lift, py_len_ends | intros width].
  apply tame_bind; [apply tame_print | intros _].
  destruct (negb (truthy suggestions)); [apply tame_print | ].
  apply tame_bind; [apply tame_lift, py_iter_ends | intros items].
  apply tame_bind.
  - apply tame_for_each. intros [i suggestion].
    apply tame_bind; [apply tame_lift, process_ends | intros p; apply tame_print].
  - intros _.
    apply tame_bind; [apply tame_lift, py_len_ends | intros count; apply tame_print].
Qed.

(** What follows the keyword prompt in one turn of the main loop. *)
Lemma tame_after_keyword (lang is_rtl : value) (line : string) :
  tame (let keyword := Text.strip line in
        if Text.mem (Text.lower keyword) ["quit"; "exit"; "q"] then
          (print (Text.nl ++ "👋 Goodbye!") ;; ret Break)
        else if String.eqb (Text.lower keyword) "lang" then
          ('(lang', is_rtl') <- choose ;;
           print ("✅ Language changed to: " ++ py_str py_repr lang') ;;
           ret (Continue lang' is_rtl'))
        else if Text.is_empty keyword then
          (print "❌ Please enter a valid keyword." ;; ret (Continue lang is_rtl))
        else
          (shown <- lift (process (PyStr keyword) is_rtl) ;;
           print (Text.nl ++ "⏳ Fetching suggestions for '" ++ py_str py_repr shown ++ "'...") ;;
           suggestions <- fetch keyword lang ;;
           display (PyStr keyword) suggestions is_rtl ;;
           ask_continue lang is_rtl)).
Proof.
  cbv zeta.
  destruct (Text.mem (Text.lower (Text.strip line)) ["quit"; "exit"; "q"]).
  { apply tame_bind; [apply tame_print | intros _; apply tame_ret]. }
  destruct (String.eqb (Text.lower (Text.strip line)) "lang").
  { apply tame_bind; [apply tame_choose | intros [lang' is_rtl']].
    apply tame_bind; [apply tame_print | intros _; apply tame_ret]. }
  destruct (Text.is_empty (Text.strip line)).
  { apply tame_bind; [apply tame_print | intros _; apply tame_ret]. }
  apply tame_bind; [apply tame_lift, process_ends | intros shown].
  apply tame_bind; [apply tame_print | intros _].
  apply tame_bind; [apply tame_fetch | intros suggestions].
  apply tame_bind; [apply tame_display | intros _; apply tame_ask_continue].
Qed.

Lemma tame_turn (lang is_rtl : value) : tame (turn lang is_rtl).
Proof.
  unfold loop_body. apply tame_bind; [apply tame_print | intros _].
  apply tame_bind; [apply tame_input | intros line].
  apply tame_after_keyword.
Qed.

Lemma consuming_turn (lang is_rtl : value) : consuming (turn lang is_rtl).
Proof.
  unfold loop_body. apply consuming_bind_r; [apply tame_print | intros _].
  apply consuming_bind_l; [apply consuming_input | intros line].
  apply tame_after_keyword.
Qed.

Lemma tame_loop (fuel : nat) :
  forall (lang is_rtl : value) (w : world),
    (List.length (stdin w) < fuel)%nat -> tame_at (loop fuel lang is_rtl) w.
Proof.
  induction fuel as [ | fuel IH]; intros lang is_rtl w Hfuel; [lia | ].
  cbn [main_loop].
  apply tame_at_bind; [apply tame_turn | intros next w1 Hturn].
  apply consuming_turn in Hturn.
  destruct next as [lang' is_rtl' | ]; [apply IH; lia | apply tame_ret].
Qed.

(** X6: whatever is typed and whatever the network and the files hold,
    the program ends, by returning, by [sys.exit] or by an exception
    nobody caught: neither loop turns without reading the terminal. *)
Theorem main_ends (w : world) :
  fst (run json_loads json_dumps requests_get http_error_text reshape
         get_display py_repr w) <> Unfinished.
Proof.
  assert (Hmain : tame program).
  { unfold main.
    apply tame_bind; [apply tame_print | intros _].
    apply tame_bind; [apply tame_print | intros _].
    apply tame_bind; [apply tame_choose | intros [lang is_rtl]].
    do 5 (apply tame_bind; [apply tame_print | intros _]).
    apply tame_try_except.
    - intros w0. apply tame_loop. lia.
    - intros e k Hk. destruct e; inversion Hk; subst.
      apply tame_bind; [apply tame_print | intros _; apply tame_raise]. }
  unfold run. destruct (Hmain w) as [Hend _].
  destruct (program w) as [[u | e | ] w']; cbn in *.
  - discriminate.
  - destruct e; discriminate.
  - now contradiction Hend.
Qed.

End Totality.

(** ** Further properties of the fetcher *)

Lemma fetch_timeout_witness :
  Ref.fetch (Ref.always NetTimeout) "cat" (PyStr "en") (fresh_world [])
  = (Return (PyList []),
     emit_all
       [Requested "http://suggestqueries.google.com/complete/search?client=firefox&q=cat&hl=en";
        Printed "❌ Request timed out. Please check your internet connection."]
       (fresh_world [])).
Proof.
  apply (fetch_timeout Ref.json_loads (Ref.always NetTimeout) Ref.http_error_text
           Ref.py_repr "cat" (PyStr "en") (fresh_world [])).
  reflexivity.
Defined.

Lemma fetch_transport_failure_witness :
  Ref.fetch (Ref.always (NetFailure "Connection refused")) "cat" (PyStr "en")
    (fresh_world [])
  = (Return (PyList []),
     emit_all
       [Requested "http://suggestqueries.google.com/complete/search?client=firefox&q=cat&hl=en";
        Printed "❌ Error fetching suggestions: Connection refused"]
       (fresh_world [])).
Proof.
  apply (fetch_transport_failure Ref.json_loads
           (Ref.always (NetFailure "Connection refused")) Ref.http_error_text
           Ref.py_repr "cat" (PyStr "en") (fresh_world []) "Connection refused").
  reflexivity.
Defined.

Lemma fetch_bad_status_witness :
  Ref.fetch (Ref.always (NetResponse 503 Ref.cat_body)) "cat" (PyStr "en")
    (fresh_world [])
  = (Return (PyList []),
     emit_all
       [Requested "http://suggestqueries.google.com/complete/search?client=firefox&q=cat&hl=en";
        Printed "❌ Error fetching suggestions: 503 Error for url: http://suggestqueries.google.com/complete/search?client=firefox&q=cat&hl=en"]
       (fresh_world [])).
Proof.
  apply (fetch_bad_status Ref.json_loads
           (Ref.always (NetResponse 503 Ref.cat_body)) Ref.http_error_text
           Ref.py_repr "cat" (PyStr "en") (fresh_world []) 503 Ref.cat_body).
  - reflexivity.
  - reflexivity.
Defined.

Lemma fetch_undecodable_witness :
  Ref.fetch (Ref.always (NetResponse 200 "<html>")) "cat" (PyStr "en") (fresh_world [])
  = (Return (PyList []),
     emit_all
       [Requested "http://suggestqueries.google.com/complete/search?client=firefox&q=cat&hl=en";
        Printed "❌ Unexpected response format from Google."]
       (fresh_world [])).
Proof.
  apply (fetch_undecodable Ref.json_loads
           (Ref.always (NetResponse 200 "<html>")) Ref.http_error_text
           Ref.py_repr "cat" (PyStr "en") (fresh_world []) 200 "<html>").
  - reflexivity.
  - reflexivity.
  - vm_compute. reflexivity.
Defined.

Lemma fetch_short_array_witness :
  Ref.fetch (Ref.always (NetResponse 200 "[1]")) "cat" (PyStr "en") (fresh_world [])
  = (Return (PyList []),
     emit_all
       [Requested "http://suggestqueries.google.com/complete/search?client=firefox&q=cat&hl=en";
        Printed "❌ Unexpected response format from Google."]
       (fresh_world [])).
Proof.
  apply (fetch_short_array Ref.json_loads
           (Ref.always (NetResponse 200 "[1]")) Ref.http_error_text
           Ref.py_repr "cat" (PyStr "en") (fresh_world []) 200 "[1]" [PyInt 1]).
  - reflexivity.
  - reflexivity.
  - vm_compute. reflexivity.
  - cbn. lia.
Defined.

Lemma main_ends_witness :
  fst (Ref.session (Ref.always (NetResponse 200 Ref.cat_body))
         (fresh_world [Line "7"; Line "2"; Line "cat"; Line "y"; Line "lang"]))
  <> Unfinished.
Proof.
  apply (main_ends Ref.json_loads Ref.json_dumps
           (Ref.always (NetResponse 200 Ref.cat_body)) Ref.http_error_text
           Ref.reshape Ref.get_display Ref.py_repr).
  - intros v. destruct v; discriminate.
  - intros v. destruct v; discriminate.
Defined.

Lemma requests_made_app (a b : list io_event) :
  requests_made (a ++ b) = (requests_made a + requests_made b)%nat.
Proof. unfold requests_made. now rewrite filter_app, length_app. Qed.

Section FetcherEffects.

Variable json_loads : string -> option value.
Variable requests_get : nat -> string -> net_result.
Variable http_error_text : Z -> string -> string.
Variable py_repr : value -> string.

Local Abbreviation fetch :=
  (get_google_autocomplete json_loads requests_get http_error_text py_repr).
Local Abbreviation url_of := (fetch_url py_repr).
Local Abbreviation answer_of := (answer requests_get py_repr).

(** X7: the interrupt key pressed while the request is under way is not
    taken by any handler of [get_google_autocomplete]: the call raises
    [KeyboardInterrupt] to its caller and prints nothing. *)
Theorem fetch_interrupted keyword lang w :
  answer_of keyword lang w = NetInterrupted ->
  fetch keyword lang w =
    (Raise KeyboardInterrupt, emit (Requested (url_of keyword lang)) w).
Proof.
  unfold answer. intros Hnet.
  unfold get_google_autocomplete, try_except, bind, http_get.
  rewrite Hnet. reflexivity.
Qed.

(** What one call leaves behind, whatever its result. *)
Lemma fetch_leaves keyword lang w :
  exists msgs,
    (List.length msgs <= 1)%nat
    /\ snd (fetch keyword lang w)
       = emit_all (Requested (url_of keyword lang) :: map Printed msgs) w.
Proof.
  unfold get_google_autocomplete, try_except, bind, http_get.
  destruct (requests_get (requests_made (trace w)) (url_of keyword lang))
    as [ | detail | | status text].
  - eexists [_]. split; [cbn; lia | cbn; world_eq].
  - eexists [_]. split; [cbn; lia | cbn; world_eq].
  - exists []. split; [cbn; lia | cbn; world_eq].
  - unfold raise_for_status.
    destruct ((400 <=? status) && (status <? 600))%Z.
    + eexists [_]. split; [cbn; lia | cbn; world_eq].
    + unfold loads. destruct (json_loads text) as [parsed | ].
      * unfold ret, lift.
        destruct (getitem_int parsed 1) as [x | e | ].
        -- exists []. split; [cbn; lia | cbn; world_eq].
        -- destruct e;
             first [ now (exists []; split; [cbn; lia | cbn; world_eq])
                   | now (eexists [_]; split; [cbn; lia | cbn; world_eq]) ].
        -- exists []. split; [cbn; lia | cbn; world_eq].
      * eexists [_]. split; [cbn; lia | cbn; world_eq].
Qed.

(** X8: every call of [get_google_autocomplete] makes exactly one request,
    whatever the network answers and whatever the body holds: it never
    tries again.  It prints at most one line, and touches neither the
    terminal input nor the files. *)
Theorem fetch_one_request keyword lang w :
  let w' := snd (fetch keyword lang w) in
  requests_made (trace w') = S (requests_made (trace w))
  /\ (exists msgs,
        (List.length msgs <= 1)%nat
        /\ trace w' = (trace w ++ Requested (url_of keyword lang) :: map Printed msgs)%list)
  /\ stdin w' = stdin w
  /\ files w' = files w.
Proof.
  destruct (fetch_leaves keyword lang w) as (msgs & Hlen & Hw).
  cbv zeta. rewrite Hw. cbn [emit_all stdin trace files].
  split; [ | split; [ | split]]; try reflexivity.
  - rewrite requests_made_app. cbn.
    assert (Hnone : requests_made (map Printed msgs) = 0%nat).
    { clear. induction msgs as [ | m ms IH]; [reflexivity | exact IH]. }
    unfold requests_made in *. cbn. rewrite Hnone. lia.
  - exists msgs. split; [exact Hlen | reflexivity].
Qed.

End FetcherEffects.

(** ** Further properties of the configuration and of the selection *)

Lemma bind_returns {A B} (m : M A) (k : A -> M B) (w w' : world) (b : B) :
  bind m k w = (Return b, w') ->
  exists a w1, m w = (Return a, w1) /\ k a w1 = (Return b, w').
Proof.
  unfold bind. destruct (m w) as [[a | e | ] w1]; try discriminate.
  intros Hk. now exists a, w1.
Qed.

Lemma emit_all_app (es es' : list io_event) (w : world) :
  emit_all es' (emit_all es w) = emit_all (es ++ es') w.
Proof. unfold emit_all. cbn. now rewrite app_assoc. Qed.

(** One answer that is no key of the table: the error line, and the
    prompt again. *)
Lemma prompt_language_again languages (line : string) (rest : list tty_event)
    (w : world) :
  stdin w = Line line :: rest ->
  Text.strip line <> EmptyString ->
  dict_get (Text.strip line) languages = None ->
  prompt_language languages w =
    prompt_language languages
      (mkWorld rest
         (trace w ++ [Prompted choice_prompt;
                      Printed "❌ Invalid choice. Please enter a number between 1-2."])
         (files w)).
Proof.
  intros Hin Hsome Hnone.
  unfold prompt_language at 1. rewrite Hin. cbn [List.length choice_loop].
  unfold bind at 1. unfold input. cbn [stdin trace files emit]. rewrite Hin.
  rewrite (is_empty_false _ Hsome), Hnone.
  unfold bind at 1. unfold print at 1. unfold prompt_language, emit.
  cbn [stdin trace files]. now rewrite <- app_assoc.
Qed.

Section Configuration.

Variable json_loads : string -> option value.
Variable json_dumps : value -> string.
Variable py_repr : value -> string.

Local Abbreviation load := (load_language_config json_loads json_dumps).
Local Abbreviation choose := (get_language_choice json_loads json_dumps py_repr).
Local Abbreviation menu := (print_menu py_repr).

(** X9: two loads in a row where no file exists.  The first writes the
    default table; the second finds the file and, when the decoder reads
    back what the encoder wrote, returns the same table and leaves the
    file as the first load wrote it. *)
Theorem load_twice (w : world) :
  files w config_path = None ->
  json_loads (json_dumps default_config) = Some default_config ->
  (load ;; load) w =
    (Return default_config,
     write_file config_path (json_dumps default_config) w).
Proof.
  intros Hnone Hback. unfold bind.
  rewrite (load_missing json_loads json_dumps w Hnone).
  apply load_existing with (text := json_dumps default_config).
  - reflexivity.
  - exact Hback.
Qed.

(** X10: a configuration file that decodes, but not to an object with
    the key [languages] (the key is missing: [KeyError]; the document is
    no object: [TypeError]), makes [get_language_choice] raise at once:
    nothing is printed, nothing is asked and the file stays as it is. *)
Theorem choose_without_languages (w : world) (text : string) (config : value)
    (e : exn) :
  files w config_path = Some text ->
  json_loads text = Some config ->
  getitem_str config "languages" = Raise e ->
  choose w = (Raise e, w).
Proof.
  intros Hfile Hjson Hkey. unfold get_language_choice.
  unfold bind at 1. rewrite (load_existing json_loads json_dumps w text config Hfile Hjson).
  unfold bind at 1. unfold lift at 1. now rewrite Hkey.
Qed.

(** X11: the menu has one line per entry of the table, in the order of
    the table: the key in two columns, then the name and the code of the
    entry. *)
Theorem print_menu_lines (items : list (string * value)) (lines : list string) :
  Forall2
    (fun item line =>
       exists name code,
         getitem_str (snd item) "name" = Return name
         /\ getitem_str (snd item) "code" = Return code
         /\ line = Text.format_2s (fst item) ++ ". " ++ py_str py_repr name
                   ++ " (" ++ py_str py_repr code ++ ")")
    items lines ->
  forall w, menu items w = (Return tt, emit_all (map Printed lines) w).
Proof.
  induction 1 as [ | [key info] line items lines (name & code & Hname & Hcode & Hline) _ IH];
    intros w.
  - cbn. now rewrite emit_all_nil.
  - unfold print_menu in *. cbn [for_each]. cbn [fst snd] in *.
    unfold bind at 1. unfold bind at 1. unfold lift at 1. rewrite Hname.
    unfold bind at 1. unfold lift at 1. rewrite Hcode.
    unfold print at 1. rewrite IH. rewrite emit_all_emit. subst line. reflexivity.
Qed.

(** The menu loop stops at the first entry whose name cannot be read. *)
Lemma print_menu_stops (good : list (string * value)) (lines : list string)
    (key : string) (bad : value) (later : list (string * value)) (e : exn) :
  Forall2
    (fun item line =>
       exists name code,
         getitem_str (snd item) "name" = Return name
         /\ getitem_str (snd item) "code" = Return code
         /\ line = Text.format_2s (fst item) ++ ". " ++ py_str py_repr name
                   ++ " (" ++ py_str py_repr code ++ ")")
    good lines ->
  getitem_str bad "name" = Raise e ->
  forall w,
    menu (good ++ (key, bad) :: later) w = (Raise e, emit_all (map Printed lines) w).
Proof.
  intros Hgood Hbad.
  induction Hgood as [ | [k info] line items lines (name & code & Hname & Hcode & Hline) _ IH];
    intros w.
  - unfold print_menu. cbn [app for_each map].
    unfold bind at 1. unfold bind at 1. unfold lift at 1. rewrite Hbad.
    now rewrite emit_all_nil.
  - unfold print_menu in *. cbn [app for_each]. cbn [fst snd] in *.
    unfold bind at 1. unfold bind at 1. unfold lift at 1. rewrite Hname.
    unfold bind at 1. unfold lift at 1. rewrite Hcode.
    unfold print at 1. rewrite IH. rewrite emit_all_emit. subst line. reflexivity.
Qed.

End Configuration.

(** X13: choosing an entry of the table that has a code but no key [rtl]
    raises [KeyError] out of the selection (an entry whose [rtl] cannot
    be read raises what reading it raises); no language is returned. *)
Theorem prompt_language_missing_flag languages (line : string)
    (rest : list tty_event) (w : world) (entry code : value) (e : exn) :
  stdin w = Line line :: rest ->
  Text.strip line <> EmptyString ->
  dict_get (Text.strip line) languages = Some entry ->
  getitem_str entry "code" = Return code ->
  getitem_str entry "rtl" = Raise e ->
  prompt_language languages w =
    (Raise e, mkWorld rest (trace w ++ [Prompted choice_prompt]) (files w)).
Proof.
  intros Hin Hsome Hentry Hcode Hrtl.
  unfold prompt_language. rewrite Hin. cbn [List.length choice_loop].
  unfold bind at 1. unfold input. cbn [stdin trace files emit]. rewrite Hin.
  rewrite (is_empty_false _ Hsome), Hentry.
  unfold bind, lift. now rewrite Hcode, Hrtl.
Qed.

(** X14: any number of answers that are no key of the table change
    nothing but the terminal: each costs one prompt and one error line,
    and the selection goes on with what is typed next. *)
Theorem prompt_language_retries languages (bad : list string) :
  Forall (fun line => Text.strip line <> EmptyString
                      /\ dict_get (Text.strip line) languages = None) bad ->
  forall (rest : list tty_event) (w : world),
    stdin w = (map Line bad ++ rest)%list ->
    prompt_language languages w =
      prompt_language languages
        (mkWorld rest
           (trace w
            ++ flat_map
                 (fun _ => [Prompted choice_prompt;
                            Printed "❌ Invalid choice. Please enter a number between 1-2."])
                 bad)
           (files w)).
Proof.
  induction 1 as [ | line bad [Hsome Hnone] _ IH]; intros rest w Hin.
  - cbn in *. rewrite app_nil_r. destruct w as [typed t f]. cbn in *. now subst.
  - cbn [map app] in Hin.
    rewrite (prompt_language_again languages line _ w Hin Hsome Hnone).
    rewrite (IH rest (mkWorld (map Line bad ++ rest) _ (files w)) eq_refl).
    cbn [stdin trace files flat_map]. now rewrite <- app_assoc.
Qed.

(** ** Further properties of the display *)

Section DisplayEdges.

Variable reshape : value -> outcome value.
Variable get_display : value -> outcome value.
Variable py_repr : value -> string.

Local Abbreviation process := (process_rtl_text reshape get_display).
Local Abbreviation display := (display_suggestions reshape get_display py_repr).

(** X15: whatever object stands for the suggestions, when it counts as
    false (the empty list, but also [null], [0], [false], an empty text
    or an empty object) the display is the header, the rule and the line
    [No suggestions found.]; nothing is enumerated and no count is
    printed. *)
Theorem display_nothing_found (keyword shown : string) (suggestions is_rtl : value)
    (w : world) :
  process (PyStr keyword) is_rtl = Return (PyStr shown) ->
  truthy suggestions = false ->
  display (PyStr keyword) suggestions is_rtl w =
    (Return tt,
     emit_all
       [Printed (Text.nl ++ "🔍 Autocomplete suggestions for '" ++ shown ++ "':");
        Printed (Text.repeat_str "=" (Text.len shown + 35));
        Printed "No suggestions found."] w).
Proof.
  intros Hk Hfalse. unfold display_suggestions.
  unfold bind at 1. unfold lift at 1. rewrite Hk.
  unfold bind at 1. unfold print at 1.
  unfold bind at 1. unfold lift at 1. cbn [py_len py_str].
  unfold bind at 1. unfold print at 1.
  rewrite Hfalse. cbn [negb]. unfold print. world_eq.
Qed.

(** X16: when the object that stands for the suggestions counts as true
    but cannot be iterated over (a number, [true]), the display raises
    [TypeError] to its caller after the header and the rule. *)
Theorem display_not_iterable (keyword shown : string) (suggestions is_rtl : value)
    (w : world) (e : exn) :
  process (PyStr keyword) is_rtl = Return (PyStr shown) ->
  truthy suggestions = true ->
  py_iter suggestions = Raise e ->
  display (PyStr keyword) suggestions is_rtl w =
    (Raise e,
     emit_all
       [Printed (Text.nl ++ "🔍 Autocomplete suggestions for '" ++ shown ++ "':");
        Printed (Text.repeat_str "=" (Text.len shown + 35))] w).
Proof.
  intros Hk Htrue Hiter. unfold display_suggestions.
  unfold bind at 1. unfold lift at 1. rewrite Hk.
  unfold bind at 1. unfold print at 1.
  unfold bind at 1. unfold lift at 1. cbn [py_len py_str].
  unfold bind at 1. unfold print at 1.
  rewrite Htrue. cbn [negb].
  unfold bind at 1. unfold lift at 1. rewrite Hiter. world_eq.
Qed.

End DisplayEdges.

Lemma display_nothing_found_witness :
  Ref.display (PyStr "cat") PyNone (PyBool false) (fresh_world [])
  = (Return tt,
     emit_all
       [Printed (Text.nl ++ "🔍 Autocomplete suggestions for 'cat':");
        Printed "======================================";
        Printed "No suggestions found."] (fresh_world [])).
Proof.
  apply (display_nothing_found Ref.reshape Ref.get_display Ref.py_repr
           "cat" "cat" PyNone (PyBool false) (fresh_world [])).
  - reflexivity.
  - reflexivity.
Defined.

Lemma display_not_iterable_witness :
  Ref.display (PyStr "cat") (PyInt 7) (PyBool false) (fresh_world [])
  = (Raise TypeError,
     emit_all
       [Printed (Text.nl ++ "🔍 Autocomplete suggestions for 'cat':");
        Printed "======================================"] (fresh_world [])).
Proof.
  apply (display_not_iterable Ref.reshape Ref.get_display Ref.py_repr
           "cat" "cat" (PyInt 7) (PyBool false) (fresh_world []) TypeError).
  - reflexivity.
  - reflexivity.
  - reflexivity.
Defined.

Lemma load_twice_witness :
  (Ref.load ;; Ref.load) (fresh_world [])
  = (Return default_config, Ref.with_config (Ref.json_dumps default_config) []).
Proof.
  apply (load_twice Ref.json_loads Ref.json_dumps (fresh_world [])).
  - reflexivity.
  - vm_compute. reflexivity.
Defined.

Lemma choose_without_languages_witness :
  Ref.choose (Ref.with_config "{}" [Line "1"])
  = (Raise KeyError, Ref.with_config "{}" [Line "1"]).
Proof.
  apply (choose_without_languages Ref.json_loads Ref.json_dumps Ref.py_repr
           (Ref.with_config "{}" [Line "1"]) "{}" (PyDict []) KeyError).
  - reflexivity.
  - vm_compute. reflexivity.
  - reflexivity.
Defined.

Lemma print_menu_lines_witness :
  print_menu Ref.py_repr Ref.default_languages (fresh_world [])
  = (Return tt,
     emit_all [Printed "1 . English (en)"; Printed "2 . Hebrew (he)"] (fresh_world [])).
Proof.
  apply (print_menu_lines Ref.py_repr Ref.default_languages
           ["1 . English (en)"; "2 . Hebrew (he)"]).
  constructor; [ | constructor; [ | constructor]].
  - exists (PyStr "English"), (PyStr "en"). repeat split.
  - exists (PyStr "Hebrew"), (PyStr "he"). repeat split.
Defined.

Lemma prompt_language_missing_flag_witness :
  prompt_language [("3", PyDict [("code", PyStr "fr"); ("name", PyStr "French")])]
    (fresh_world [Line "3"])
  = (Raise KeyError, emit (Prompted choice_prompt) (fresh_world [])).
Proof.
  apply (prompt_language_missing_flag
           [("3", PyDict [("code", PyStr "fr"); ("name", PyStr "French")])]
           "3" [] (fresh_world [Line "3"])
           (PyDict [("code", PyStr "fr"); ("name", PyStr "French")]) (PyStr "fr") KeyError).
  - reflexivity.
  - discriminate.
  - reflexivity.
  - reflexivity.
  - reflexivity.
Defined.

Lemma prompt_language_retries_witness :
  prompt_language Ref.default_languages (fresh_world [Line "9"; Line "he"; Line "2"])
  = prompt_language Ref.default_languages
      (emit_all
         [Prompted choice_prompt;
          Printed "❌ Invalid choice. Please enter a number between 1-2.";
          Prompted choice_prompt;
          Printed "❌ Invalid choice. Please enter a number between 1-2."]
         (fresh_world [Line "2"])).
Proof.
  refine (prompt_language_retries Ref.default_languages ["9"; "he"] _
            [Line "2"] (fresh_world [Line "9"; Line "he"; Line "2"]) eq_refl).
  constructor; [split; [discriminate | reflexivity] | ].
  constructor; [split; [discriminate | reflexivity] | constructor].
Defined.

(** ** Further properties of the loop *)

Lemma ask_continue_keeps_binding (lang is_rtl l r : value) (w w' : world) :
  ask_continue lang is_rtl w = (Return (Continue l r), w') ->
  l = lang /\ r = is_rtl.
Proof.
  unfold ask_continue. intros H.
  apply bind_returns in H as (reply & w1 & _ & H).
  destruct (Text.mem (Text.lower (Text.strip reply)) ["n"; "no"]).
  - apply bind_returns in H as (u & w2 & _ & H). discriminate.
  - inversion H. now split.
Qed.

Section LoopEdges.

Variable json_loads : string -> option value.
Variable json_dumps : value -> string.
Variable requests_get : nat -> string -> net_result.
Variable http_error_text : Z -> string -> string.
Variable reshape : value -> outcome value.
Variable get_display : value -> outcome value.
Variable py_repr : value -> string.

Local Abbreviation choose := (get_language_choice json_loads json_dumps py_repr).
Local Abbreviation answer_of := (answer requests_get py_repr).
Local Abbreviation turn :=
  (loop_body json_loads json_dumps requests_get http_error_text reshape
     get_display py_repr).
Local Abbreviation loop :=
  (main_loop json_loads json_dumps requests_get http_error_text reshape
     get_display py_repr).
Local Abbreviation session :=
  (run json_loads json_dumps requests_get http_error_text reshape
     get_display py_repr).

(** X17: the language binding changes only by the command [lang]: a turn
    of the loop on any other line, if it goes on to a next turn, goes on
    with the code and the flag it was given. *)
Theorem turn_keeps_binding (lang is_rtl l r : value) (line : string)
    (rest : list tty_event) (w w' : world) :
  stdin w = Line line :: rest ->
  Text.lower (Text.strip line) <> "lang" ->
  turn lang is_rtl w = (Return (Continue l r), w') ->
  l = lang /\ r = is_rtl.
Proof.
  intros Hin Hlang. unfold loop_body.
  unfold bind at 1. unfold print at 1.
  unfold bind at 1. unfold input. cbn [stdin trace files emit]. rewrite Hin.
  apply String.eqb_neq in Hlang. rewrite Hlang.
  destruct (Text.mem (Text.lower (Text.strip line)) ["quit"; "exit"; "q"]).
  { intros H. apply bind_returns in H as (u & w1 & _ & H). discriminate. }
  destruct (Text.is_empty (Text.strip line)).
  { intros H. apply bind_returns in H as (u & w1 & _ & H). inversion H. now split. }
  intros H.
  apply bind_returns in H as (shown & w1 & _ & H).
  apply bind_returns in H as (u & w2 & _ & H).
  apply bind_returns in H as (suggestions & w3 & _ & H).
  apply bind_returns in H as (u' & w4 & _ & H).
  now apply ask_continue_keeps_binding in H.
Qed.

(** What [main] does once the language is selected. *)
Lemma main_after_selection (w w1 : world) (lang is_rtl : value) :
  choose
    (emit_all [Printed "🚀 Google Autocomplete Suggestion Tool";
               Printed (Text.repeat_str "=" 40)] w)
  = (Return (lang, is_rtl), w1) ->
  main json_loads json_dumps requests_get http_error_text reshape get_display
    py_repr w
  = try_except
      (loop (S (List.length (stdin w1))) lang is_rtl)
      (fun e =>
         match e with
         | KeyboardInterrupt =>
             Some (print (Text.nl ++ Text.nl ++ "👋 Exiting... Goodbye!") ;;
                   raise (SystemExit 0))
         | _ => None
         end)
      (emit_all
         [Printed (Text.nl ++ "✅ Language set to: " ++ py_str py_repr lang);
          Printed (Text.nl ++ "💡 Tips:");
          Printed "  - Type 'quit', 'exit', or 'q' to exit";
          Printed "  - Type 'lang' to change language";
          Printed "  - Press Ctrl+C to exit anytime"] w1).
Proof.
  intros Hchoose. unfold main.
  unfold bind at 1. unfold print at 1.
  unfold bind at 1. unfold print at 1.
  replace (emit (Printed (Text.repeat_str "=" 40))
             (emit (Printed "🚀 Google Autocomplete Suggestion Tool") w))
    with (emit_all [Printed "🚀 Google Autocomplete Suggestion Tool";
                    Printed (Text.repeat_str "=" 40)] w) by world_eq.
  unfold bind at 1. rewrite Hchoose.
  do 5 (unfold bind at 1; unfold print at 1).
  unfold try_except. cbn [stdin emit].
  match goal with
  | |- context [loop _ lang is_rtl ?a] =>
      replace a with
        (emit_all
           [Printed (Text.nl ++ "✅ Language set to: " ++ py_str py_repr lang);
            Printed (Text.nl ++ "💡 Tips:");
            Printed "  - Type 'quit', 'exit', or 'q' to exit";
            Printed "  - Type 'lang' to change language";
            Printed "  - Press Ctrl+C to exit anytime"] w1) by world_eq
  end.
  reflexivity.
Qed.

(** X18: once the language is selected, [KeyboardInterrupt] raised by
    anything in the loop (a prompt, the request, a change of language)
    ends the program with the goodbye line as the last thing printed and
    exit status 0. *)
Theorem interrupt_in_loop_exits_cleanly (w w1 w2 : world) (lang is_rtl : value) :
  choose
    (emit_all [Printed "🚀 Google Autocomplete Suggestion Tool";
               Printed (Text.repeat_str "=" 40)] w)
  = (Return (lang, is_rtl), w1) ->
  loop (S (List.length (stdin w1))) lang is_rtl
    (emit_all
       [Printed (Text.nl ++ "✅ Language set to: " ++ py_str py_repr lang);
        Printed (Text.nl ++ "💡 Tips:");
        Printed "  - Type 'quit', 'exit', or 'q' to exit";
        Printed "  - Type 'lang' to change language";
        Printed "  - Press Ctrl+C to exit anytime"] w1)
  = (Raise KeyboardInterrupt, w2) ->
  session w =
    (Exited 0,
     (trace w2 ++ [Printed (Text.nl ++ Text.nl ++ "👋 Exiting... Goodbye!")])%list).
Proof.
  intros Hchoose Hloop. unfold run.
  rewrite (main_after_selection w w1 lang is_rtl Hchoose).
  unfold try_except. rewrite Hloop. reflexivity.
Qed.

(** X19: any other exception raised in the loop, the [EOFError] of a
    closed terminal among them, passes through [main] uncaught: the
    program ends with its traceback, and nothing more is printed. *)
Theorem other_exception_in_loop_uncaught (w w1 w2 : world) (lang is_rtl : value)
    (e : exn) :
  choose
    (emit_all [Printed "🚀 Google Autocomplete Suggestion Tool";
               Printed (Text.repeat_str "=" 40)] w)
  = (Return (lang, is_rtl), w1) ->
  loop (S (List.length (stdin w1))) lang is_rtl
    (emit_all
       [Printed (Text.nl ++ "✅ Language set to: " ++ py_str py_repr lang);
        Printed (Text.nl ++ "💡 Tips:");
        Printed "  - Type 'quit', 'exit', or 'q' to exit";
        Printed "  - Type 'lang' to change language";
        Printed "  - Press Ctrl+C to exit anytime"] w1)
  = (Raise e, w2) ->
  e <> KeyboardInterrupt ->
  (forall code, e <> SystemExit code) ->
  session w = (Traceback e, trace w2).
Proof.
  intros Hchoose Hloop Hki Hexit. unfold run.
  rewrite (main_after_selection w w1 lang is_rtl Hchoose).
  unfold try_except. rewrite Hloop.
  destruct e; try reflexivity.
  - now contradiction Hki.
  - now contradiction (Hexit code).
Qed.

End LoopEdges.

Section LoopFailure.

Variable json_loads : string -> option value.
Variable json_dumps : value -> string.
Variable requests_get : nat -> string -> net_result.
Variable http_error_text : Z -> string -> string.
Variable reshape : value -> outcome value.
Variable get_display : value -> outcome value.
Variable py_repr : value -> string.

Local Abbreviation answer_of := (answer requests_get py_repr).
Local Abbreviation turn :=
  (loop_body json_loads json_dumps requests_get http_error_text reshape
     get_display py_repr).

(** X20: a request that times out does not end the turn.  In
    left-to-right mode the turn prints the time-out line, displays the
    empty result and asks the question to continue, as after any other
    query. *)
Theorem turn_after_timeout (lang is_rtl : value) (line : string)
    (rest : list tty_event) (w : world) :
  stdin w = Line line :: rest ->
  let keyword := Text.strip line in
  Text.mem (Text.lower keyword) ["quit"; "exit"; "q"] = false ->
  Text.lower keyword <> "lang" ->
  keyword <> EmptyString ->
  truthy is_rtl = false ->
  answer_of keyword lang w = NetTimeout ->
  turn lang is_rtl w =
    ask_continue lang is_rtl
      (mkWorld rest
         (trace w
          ++ [Printed turn_rule;
              Prompted keyword_prompt;
              Printed (Text.nl ++ "⏳ Fetching suggestions for '" ++ keyword ++ "'...");
              Requested (fetch_url py_repr keyword lang);
              Printed "❌ Request timed out. Please check your internet connection.";
              Printed (Text.nl ++ "🔍 Autocomplete suggestions for '" ++ keyword ++ "':");
              Printed (Text.repeat_str "=" (Text.len keyword + 35));
              Printed "No suggestions found."])
         (files w)).
Proof.
  intros Hin keyword Hexit Hlang Hsome Hltr Hnet.
  unfold loop_body.
  unfold bind at 1. unfold print at 1.
  unfold bind at 1. unfold input. cbn [stdin trace files emit]. rewrite Hin.
  fold keyword. rewrite Hexit.
  apply String.eqb_neq in Hlang. rewrite Hlang.
  rewrite (is_empty_false _ Hsome).
  unfold bind at 1. unfold lift at 1.
  rewrite (process_rtl_text_falsy reshape get_display _ _ Hltr). cbn [py_str].
  unfold bind at 1. unfold print at 1.
  unfold bind at 1.
  unfold get_google_autocomplete, try_except.
  unfold bind at 1. unfold http_get. cbn [trace emit].
  replace (requests_made (((trace w ++ [Printed turn_rule]) ++ [Prompted keyword_prompt])
             ++ [Printed (Text.nl ++ "⏳ Fetching suggestions for '" ++ keyword ++ "'...")]))
    with (requests_made (trace w))
    by (rewrite !requests_made_app; cbn; lia).
  unfold answer in Hnet. rewrite Hnet.
  unfold bind at 1. unfold print at 1. unfold ret at 1.
  unfold bind at 1. unfold display_suggestions.
  unfold bind at 1. unfold lift at 1.
  rewrite (process_rtl_text_falsy reshape get_display _ _ Hltr). cbn [py_str py_len].
  unfold bind at 1. unfold print at 1.
  unfold bind at 1. unfold lift at 1.
  unfold bind at 1. unfold print at 1.
  cbn [truthy negb]. unfold print at 1.
  f_equal. unfold emit. cbn [stdin trace files].
  repeat rewrite <- app_assoc. reflexivity.
Qed.

End LoopFailure.

Lemma turn_after_timeout_witness :
  Ref.turn (Ref.always NetTimeout) (PyStr "en") (PyBool false)
    (fresh_world [Line " cat "; Line "n"])
  = (Return Break,
     emit_all
       [Printed turn_rule;
        Prompted keyword_prompt;
        Printed (Text.nl ++ "⏳ Fetching suggestions for 'cat'...");
        Requested "http://suggestqueries.google.com/complete/search?client=firefox&q=cat&hl=en";
        Printed "❌ Request timed out. Please check your internet connection.";
        Printed (Text.nl ++ "🔍 Autocomplete suggestions for 'cat':");
        Printed "======================================";
        Printed "No suggestions found.";
        Prompted continue_prompt;
        Printed (Text.nl ++ "👋 Thanks for using Google Autocomplete Tool!")]
       (fresh_world [])).
Proof.
  unfold Ref.turn.
  rewrite (turn_after_timeout Ref.json_loads Ref.json_dumps (Ref.always NetTimeout)
             Ref.http_error_text Ref.reshape Ref.get_display Ref.py_repr
             (PyStr "en") (PyBool false) " cat " [Line "n"]
             (fresh_world [Line " cat "; Line "n"]) eq_refl).
  - vm_compute. reflexivity.
  - reflexivity.
  - discriminate.
  - discriminate.
  - reflexivity.
  - reflexivity.
Defined.

Lemma turn_keeps_binding_witness :
  exists l r w',
    Ref.turn (Ref.always (NetResponse 200 Ref.cat_body)) (PyStr "he") (PyBool true)
      (fresh_world [Line "cat"; Line "y"])
    = (Return (Continue l r), w')
    /\ l = PyStr "he" /\ r = PyBool true.
Proof.
  pose (out := Ref.turn (Ref.always (NetResponse 200 Ref.cat_body)) (PyStr "he")
                 (PyBool true) (fresh_world [Line "cat"; Line "y"])).
  exists (PyStr "he"), (PyBool true), (snd out).
  split; [vm_compute; reflexivity | ].
  apply (turn_keeps_binding Ref.json_loads Ref.json_dumps
           (Ref.always (NetResponse 200 Ref.cat_body)) Ref.http_error_text
           Ref.reshape Ref.get_display Ref.py_repr
           (PyStr "he") (PyBool true) (PyStr "he") (PyBool true) "cat" [Line "y"]
           (fresh_world [Line "cat"; Line "y"]) (snd out)).
  - reflexivity.
  - discriminate.
  - vm_compute. reflexivity.
Defined.

Lemma interrupt_in_loop_exits_cleanly_witness :
  fst (Ref.session (Ref.always NetInterrupted) (fresh_world [Line "1"; Line "cat"]))
  = Exited 0.
Proof.
  unfold Ref.session.
  erewrite (interrupt_in_loop_exits_cleanly Ref.json_loads Ref.json_dumps
              (Ref.always NetInterrupted) Ref.http_error_text Ref.reshape
              Ref.get_display Ref.py_repr (fresh_world [Line "1"; Line "cat"])).
  - reflexivity.
  - vm_compute. reflexivity.
  - vm_compute. reflexivity.
Defined.

Lemma other_exception_in_loop_uncaught_witness :
  fst (Ref.session (Ref.always NetTimeout) (fresh_world [Line "1"]))
  = Traceback EOFError.
Proof.
  unfold Ref.session.
  erewrite (other_exception_in_loop_uncaught Ref.json_loads Ref.json_dumps
              (Ref.always NetTimeout) Ref.http_error_text Ref.reshape
              Ref.get_display Ref.py_repr (fresh_world [Line "1"])).
  - reflexivity.
  - vm_compute. reflexivity.
  - vm_compute. reflexivity.
  - discriminate.
  - discriminate.
Defined.

(** ** The encoded keyword *)

Lemma list_ascii_of_string_app (a b : string) :
  list_ascii_of_string (a ++ b) = (list_ascii_of_string a ++ list_ascii_of_string b)%list.
Proof. induction a as [ | c a IH]; cbn; [reflexivity | now rewrite IH]. Qed.

Lemma percent_chars (c : ascii) :
  Forall (fun x => Quote.unreserved x = true \/ x = "%"%char)
    (list_ascii_of_string (Quote.percent c)).
Proof.
  destruct c as [[] [] [] [] [] [] [] []];
    (constructor; [right; reflexivity | ]);
    (constructor; [left; reflexivity | ]);
    (constructor; [left; reflexivity | constructor]).
Qed.

(** Every character of the keyword as it goes into the URL is a letter,
    a digit, one of [_ . - ~ /] or the percent sign. *)
Lemma quote_chars (keyword : string) :
  Forall (fun x => Quote.unreserved x = true \/ x = "%"%char)
    (list_ascii_of_string (Quote.quote keyword)).
Proof.
  induction keyword as [ | c s IH]; cbn [Quote.quote].
  - constructor.
  - rewrite list_ascii_of_string_app. apply Forall_app. split; [ | exact IH].
    destruct (Quote.unreserved c) eqn:Hc.
    + constructor; [left; exact Hc | constructor].
    + apply percent_chars.
Qed.

(** X21: the separators of a query never occur in the keyword as it
    goes into the URL: a keyword holding [&], [=], [#], [?] or a blank
    cannot cut the query short or add a parameter to it. *)
Theorem quote_no_separator (keyword : string) (x : ascii) :
  In x (list_ascii_of_string (Quote.quote keyword)) ->
  x <> "&"%char /\ x <> "="%char /\ x <> "#"%char /\ x <> "?"%char /\ x <> " "%char.
Proof.
  intros Hin.
  pose proof (quote_chars keyword) as Hall.
  rewrite Forall_forall in Hall. destruct (Hall x Hin) as [Hsafe | ->].
  - repeat split; intros ->; discriminate.
  - repeat split; discriminate.
Qed.

Lemma quote_no_separator_witness :
  Quote.quote "a&b c" = "a%26b%20c"
  /\ ("%"%char <> "&"%char /\ "%"%char <> "="%char /\ "%"%char <> "#"%char
      /\ "%"%char <> "?"%char /\ "%"%char <> " "%char).
Proof.
  split; [reflexivity | ].
  apply (quote_no_separator "a&b c" "%"%char).
  cbn. right. left. reflexivity.
Defined.

Lemma fetch_interrupted_witness :
  Ref.fetch (Ref.always NetInterrupted) "cat" (PyStr "en") (fresh_world [])
  = (Raise KeyboardInterrupt,
     emit (Requested "http://suggestqueries.google.com/complete/search?client=firefox&q=cat&hl=en")
       (fresh_world [])).
Proof.
  apply (fetch_interrupted Ref.json_loads (Ref.always NetInterrupted)
           Ref.http_error_text Ref.py_repr "cat" (PyStr "en") (fresh_world [])).
  reflexivity.
Defined.

(** ** The selection, from the configuration to the answer *)

(** The selection loop only adds to what is on the terminal. *)
Lemma choice_loop_grows languages (fuel : nat) :
  forall w, exists more,
    trace (snd (choice_loop fuel languages w)) = (trace w ++ more)%list.
Proof.
  induction fuel as [ | fuel IH]; intros w.
  - exists []. cbn. now rewrite app_nil_r.
  - cbn [choice_loop]. unfold bind at 1. unfold input. cbn [stdin trace files emit].
    destruct (stdin w) as [ | [line | ] rest].
    + exists [Prompted choice_prompt]. reflexivity.
    + destruct (Text.is_empty (Text.strip line)).
      * exists [Prompted choice_prompt]. reflexivity.
      * destruct (dict_get (Text.strip line) languages) as [lang_info | ].
        -- exists [Prompted choice_prompt]. unfold bind, lift.
           destruct (getitem_str lang_info "code"); try reflexivity.
           destruct (getitem_str lang_info "rtl"); reflexivity.
        -- unfold bind at 1. unfold print at 1.
           match goal with
           | |- context [choice_loop fuel languages ?w2] =>
               destruct (IH w2) as [more Hmore]; rewrite Hmore
           end.
           cbn [emit stdin trace files]. eexists. rewrite <- !app_assoc. reflexivity.
    + exists [Prompted choice_prompt]. reflexivity.
Qed.

(** Whatever is typed, the first thing the selection loop does is to
    write its prompt. *)
Lemma prompt_language_prompts_first languages (w : world) :
  exists more,
    trace (snd (prompt_language languages w))
    = (trace w ++ Prompted choice_prompt :: more)%list.
Proof.
  unfold prompt_language. cbn [choice_loop].
  unfold bind at 1. unfold input. cbn [stdin trace files emit].
  destruct (stdin w) as [ | [line | ] rest].
  - exists []. reflexivity.
  - destruct (Text.is_empty (Text.strip line)).
    + exists []. reflexivity.
    + destruct (dict_get (Text.strip line) languages) as [lang_info | ].
      * exists []. unfold bind, lift.
        destruct (getitem_str lang_info "code"); try reflexivity.
        destruct (getitem_str lang_info "rtl"); reflexivity.
      * unfold bind at 1. unfold print at 1.
        match goal with
        | |- context [choice_loop ?f languages ?w2] =>
            destruct (choice_loop_grows languages f w2) as [more Hmore]; rewrite Hmore
        end.
        cbn [emit stdin trace files]. eexists. rewrite <- !app_assoc. reflexivity.
  - exists []. reflexivity.
Qed.

Section Selection.

Variable json_loads : string -> option value.
Variable json_dumps : value -> string.
Variable py_repr : value -> string.

Local Abbreviation load := (load_language_config json_loads json_dumps).
Local Abbreviation choose := (get_language_choice json_loads json_dumps py_repr).
Local Abbreviation menu := (print_menu py_repr).

(** The lines of the menu, entry by entry. *)
Lemma print_menu_trace (items : list (string * value)) (lines : list string) :
  Forall2
    (fun item line =>
       exists name code,
         getitem_str (snd item) "name" = Return name
         /\ getitem_str (snd item) "code" = Return code
         /\ line = Text.format_2s (fst item) ++ ". " ++ py_str py_repr name
                   ++ " (" ++ py_str py_repr code ++ ")")
    items lines ->
  forall w, menu items w = (Return tt, emit_all (map Printed lines) w).
Proof.
  induction 1 as [ | [key info] line items lines (name & code & Hname & Hcode & Hline) _ IH];
    intros w.
  - cbn. now rewrite emit_all_nil.
  - unfold print_menu in *. cbn [for_each]. cbn [fst snd] in *.
    unfold bind at 1. unfold bind at 1. unfold lift at 1. rewrite Hname.
    unfold bind at 1. unfold lift at 1. rewrite Hcode.
    unfold print at 1. rewrite IH. rewrite emit_all_emit. subst line. reflexivity.
Qed.

(** From the call of [get_language_choice] to its first prompt: the
    table is loaded, the header and the menu are printed, and the
    selection loop starts over the table that was loaded. *)
Lemma choose_reaches_prompt (w w0 : world) (config : value)
    (languages : list (string * value)) (lines : list string) :
  load w = (Return config, w0) ->
  getitem_str config "languages" = Return (PyDict languages) ->
  Forall2
    (fun item line =>
       exists name code,
         getitem_str (snd item) "name" = Return name
         /\ getitem_str (snd item) "code" = Return code
         /\ line = Text.format_2s (fst item) ++ ". " ++ py_str py_repr name
                   ++ " (" ++ py_str py_repr code ++ ")")
    languages lines ->
  choose w =
    prompt_language languages
      (emit_all (Printed (Text.nl ++ "🌐 Select language:") :: map Printed lines) w0).
Proof.
  intros Hload Htable Hmenu. unfold get_language_choice.
  unfold bind at 1. rewrite Hload.
  unfold bind at 1. unfold lift at 1. rewrite Htable.
  unfold bind at 1. unfold print at 1.
  unfold bind at 1. unfold lift at 1. cbn [dict_items].
  unfold bind at 1. rewrite (print_menu_trace _ _ Hmenu).
  now rewrite emit_all_emit.
Qed.

(** C7: one answer at the first prompt of [get_language_choice], over the
    table it loaded from the configuration.  A blank line returns [en]
    with the flag false; a line that, trimmed, is no key of the table
    gets the error line and then the prompt again, the selection going
    on over the same table with the files as they were; a line that,
    trimmed, is a key of the table returns the code and the flag of
    that entry. *)
Theorem get_language_choice_answer (w w0 : world) (config : value)
    (languages : list (string * value)) (lines : list string)
    (line : string) (rest : list tty_event) :
  load w = (Return config, w0) ->
  getitem_str config "languages" = Return (PyDict languages) ->
  Forall2
    (fun item line =>
       exists name code,
         getitem_str (snd item) "name" = Return name
         /\ getitem_str (snd item) "code" = Return code
         /\ line = Text.format_2s (fst item) ++ ". " ++ py_str py_repr name
                   ++ " (" ++ py_str py_repr code ++ ")")
    languages lines ->
  stdin w0 = Line line :: rest ->
  let choice := Text.strip line in
  let asked :=
    mkWorld rest
      (trace w0 ++ Printed (Text.nl ++ "🌐 Select language:") :: map Printed lines
       ++ [Prompted choice_prompt])
      (files w0) in
  (choice = EmptyString ->
   choose w = (Return (PyStr "en", PyBool false), asked))
  /\ (choice <> EmptyString ->
      dict_get choice languages = None ->
      choose w =
        prompt_language languages
          (emit (Printed "❌ Invalid choice. Please enter a number between 1-2.") asked)
      /\ exists more,
           trace (snd (choose w))
           = (trace asked
              ++ [Printed "❌ Invalid choice. Please enter a number between 1-2.";
                  Prompted choice_prompt] ++ more)%list)
  /\ (forall entry code rtl,
        choice <> EmptyString ->
        dict_get choice languages = Some entry ->
        getitem_str entry "code" = Return code ->
        getitem_str entry "rtl" = Return rtl ->
        choose w = (Return (code, rtl), asked)).
Proof.
  intros Hload Htable Hmenu Hin choice asked.
  rewrite (choose_reaches_prompt w w0 config languages lines Hload Htable Hmenu).
  set (shown := emit_all (Printed (Text.nl ++ "🌐 Select language:") :: map Printed lines) w0).
  assert (Hshown : stdin shown = Line line :: rest) by exact Hin.
  assert (Hasked : mkWorld rest (trace shown ++ [Prompted choice_prompt]) (files shown)
                   = asked).
  { unfold asked, shown, emit_all. cbn [stdin trace files].
    rewrite <- app_assoc. reflexivity. }
  destruct (prompt_language_turn languages line rest shown Hshown)
    as (Hblank & Hagain & Hvalid).
  rewrite Hasked in Hblank, Hagain, Hvalid.
  split; [exact Hblank | split; [ | exact Hvalid]].
  intros Hsome Hnone. split; [exact (Hagain Hsome Hnone) | ].
  rewrite (Hagain Hsome Hnone).
  destruct (prompt_language_prompts_first languages
              (emit (Printed "❌ Invalid choice. Please enter a number between 1-2.") asked))
    as [more Hmore].
  exists more. rewrite Hmore. cbn [emit trace]. rewrite <- app_assoc. reflexivity.
Qed.

(** X12: an entry of the table whose [name] cannot be read (the key is
    missing: [KeyError]; the entry is no object: [TypeError]) stops
    [get_language_choice] with that exception after the header and the
    lines of the entries before it: no prompt is written and nothing is
    read from the terminal. *)
Theorem get_language_choice_menu_stops (w w0 : world) (config : value)
    (good : list (string * value)) (lines : list string)
    (key : string) (bad : value) (later : list (string * value)) (e : exn) :
  load w = (Return config, w0) ->
  getitem_str config "languages" = Return (PyDict (good ++ (key, bad) :: later)) ->
  Forall2
    (fun item line =>
       exists name code,
         getitem_str (snd item) "name" = Return name
         /\ getitem_str (snd item) "code" = Return code
         /\ line = Text.format_2s (fst item) ++ ". " ++ py_str py_repr name
                   ++ " (" ++ py_str py_repr code ++ ")")
    good lines ->
  getitem_str bad "name" = Raise e ->
  choose w =
    (Raise e,
     emit_all (Printed (Text.nl ++ "🌐 Select language:") :: map Printed lines) w0).
Proof.
  intros Hload Htable Hgood Hbad. unfold get_language_choice.
  unfold bind at 1. rewrite Hload.
  unfold bind at 1. unfold lift at 1. rewrite Htable.
  unfold bind at 1. unfold print at 1.
  unfold bind at 1. unfold lift at 1. cbn [dict_items].
  unfold bind at 1.
  rewrite (print_menu_stops py_repr good lines key bad later e Hgood Hbad).
  now rewrite emit_all_emit.
Qed.

End Selection.

Lemma get_language_choice_answer_witness :
  Ref.choose (fresh_world [Line "  "])
  = (Return (PyStr "en", PyBool false),
     emit_all
       [Printed (Text.nl ++ "🌐 Select language:");
        Printed "1 . English (en)"; Printed "2 . Hebrew (he)";
        Prompted choice_prompt]
       (Ref.with_config (Ref.json_dumps default_config) []))
  /\ Ref.choose (fresh_world [Line "9"; Line " 2 "])
     = (Return (PyStr "he", PyBool true),
        emit_all
          [Printed (Text.nl ++ "🌐 Select language:");
           Printed "1 . English (en)"; Printed "2 . Hebrew (he)";
           Prompted choice_prompt;
           Printed "❌ Invalid choice. Please enter a number between 1-2.";
           Prompted choice_prompt]
          (Ref.with_config (Ref.json_dumps default_config) []))
  /\ Ref.choose (fresh_world [Line " 2 "])
     = (Return (PyStr "he", PyBool true),
        emit_all
          [Printed (Text.nl ++ "🌐 Select language:");
           Printed "1 . English (en)"; Printed "2 . Hebrew (he)";
           Prompted choice_prompt]
          (Ref.with_config (Ref.json_dumps default_config) [])).
Proof.
  assert (Hmenu :
    Forall2
      (fun item line =>
         exists name code,
           getitem_str (snd item) "name" = Return name
           /\ getitem_str (snd item) "code" = Return code
           /\ line = Text.format_2s (fst item) ++ ". " ++ py_str Ref.py_repr name
                     ++ " (" ++ py_str Ref.py_repr code ++ ")")
      Ref.default_languages ["1 . English (en)"; "2 . Hebrew (he)"]).
  { constructor; [ | constructor; [ | constructor]].
    - exists (PyStr "English"), (PyStr "en"). repeat split.
    - exists (PyStr "Hebrew"), (PyStr "he"). repeat split. }
  split; [ | split].
  - apply (get_language_choice_answer Ref.json_loads Ref.json_dumps Ref.py_repr
             (fresh_world [Line "  "])
             (Ref.with_config (Ref.json_dumps default_config) [Line "  "])
             default_config Ref.default_languages
             ["1 . English (en)"; "2 . Hebrew (he)"] "  " []
             eq_refl eq_refl Hmenu eq_refl).
    reflexivity.
  - destruct (get_language_choice_answer Ref.json_loads Ref.json_dumps Ref.py_repr
                (fresh_world [Line "9"; Line " 2 "])
                (Ref.with_config (Ref.json_dumps default_config) [Line "9"; Line " 2 "])
                default_config Ref.default_languages
                ["1 . English (en)"; "2 . Hebrew (he)"] "9" [Line " 2 "]
                eq_refl eq_refl Hmenu eq_refl) as (_ & Hagain & _).
    destruct Hagain as [Hgoes _]; [discriminate | reflexivity | ].
    unfold Ref.choose. rewrite Hgoes. vm_compute. reflexivity.
  - apply (get_language_choice_answer Ref.json_loads Ref.json_dumps Ref.py_repr
             (fresh_world [Line " 2 "])
             (Ref.with_config (Ref.json_dumps default_config) [Line " 2 "])
             default_config Ref.default_languages
             ["1 . English (en)"; "2 . Hebrew (he)"] " 2 " []
             eq_refl eq_refl Hmenu eq_refl)
      with (entry := PyDict [("code", PyStr "he"); ("name", PyStr "Hebrew");
                             ("rtl", PyBool true)]).
    + discriminate.
    + reflexivity.
    + reflexivity.
    + reflexivity.
Defined.

Lemma get_language_choice_menu_stops_witness :
  Ref.choose
    (Ref.with_config
       (Ref.json_dumps
          (PyDict [("languages", PyDict [
             ("1", PyDict [("code", PyStr "en"); ("name", PyStr "English");
                           ("rtl", PyBool false)]);
             ("3", PyDict [("code", PyStr "fr")])])]))
       [Line "1"])
  = (Raise KeyError,
     emit_all
       [Printed (Text.nl ++ "🌐 Select language:"); Printed "1 . English (en)"]
       (Ref.with_config
          (Ref.json_dumps
             (PyDict [("languages", PyDict [
                ("1", PyDict [("code", PyStr "en"); ("name", PyStr "English");
                              ("rtl", PyBool false)]);
                ("3", PyDict [("code", PyStr "fr")])])]))
          [Line "1"])).
Proof.
  apply (get_language_choice_menu_stops Ref.json_loads Ref.json_dumps Ref.py_repr
           _ _
           (PyDict [("languages", PyDict [
              ("1", PyDict [("code", PyStr "en"); ("name", PyStr "English");
                            ("rtl", PyBool false)]);
              ("3", PyDict [("code", PyStr "fr")])])])
           [("1", PyDict [("code", PyStr "en"); ("name", PyStr "English");
                          ("rtl", PyBool false)])]
           ["1 . English (en)"] "3" (PyDict [("code", PyStr "fr")]) [] KeyError).
  - vm_compute. reflexivity.
  - reflexivity.
  - constructor; [ | constructor].
    exists (PyStr "English"), (PyStr "en"). repeat split.
  - reflexivity.
Defined.

(** ** The main loop, turn by turn *)

Section Turns.

Variable json_loads : string -> option value.
Variable json_dumps : value -> string.
Variable requests_get : nat -> string -> net_result.
Variable http_error_text : Z -> string -> string.
Variable reshape : value -> outcome value.
Variable get_display : value -> outcome value.
Variable py_repr : value -> string.

Local Abbreviation choose := (get_language_choice json_loads json_dumps py_repr).
Local Abbreviation process := (process_rtl_text reshape get_display).
Local Abbreviation fetch :=
  (get_google_autocomplete json_loads requests_get http_error_text py_repr).
Local Abbreviation answer_of := (answer requests_get py_repr).
Local Abbreviation display := (display_suggestions reshape get_display py_repr).
Local Abbreviation turn :=
  (loop_body json_loads json_dumps requests_get http_error_text reshape
     get_display py_repr).
Local Abbreviation loop :=
  (main_loop json_loads json_dumps requests_get http_error_text reshape
     get_display py_repr).
Local Abbreviation session :=
  (run json_loads json_dumps requests_get http_error_text reshape
     get_display py_repr).

(** A turn writes the rule and the prompt, reads a line and goes by it. *)
Lemma turn_reads (lang is_rtl : value) (line : string) (rest : list tty_event)
    (w : world) :
  stdin w = Line line :: rest ->
  turn lang is_rtl w =
    (let keyword := Text.strip line in
     if Text.mem (Text.lower keyword) ["quit"; "exit"; "q"] then
       (print (Text.nl ++ "👋 Goodbye!") ;; ret Break)
     else if String.eqb (Text.lower keyword) "lang" then
       ('(lang', is_rtl') <- choose ;;
        print ("✅ Language changed to: " ++ py_str py_repr lang') ;;
        ret (Continue lang' is_rtl'))
     else if Text.is_empty keyword then
       (print "❌ Please enter a valid keyword." ;; ret (Continue lang is_rtl))
     else
       (shown <- lift (process (PyStr keyword) is_rtl) ;;
        print (Text.nl ++ "⏳ Fetching suggestions for '" ++ py_str py_repr shown ++ "'...") ;;
        suggestions <- fetch keyword lang ;;
        display (PyStr keyword) suggestions is_rtl ;;
        ask_continue lang is_rtl))
      (mkWorld rest (trace w ++ [Printed turn_rule; Prompted keyword_prompt]) (files w)).
Proof.
  intros Hin. unfold loop_body.
  unfold bind at 1. unfold print at 1.
  unfold bind at 1. unfold input. cbn [stdin trace files emit]. rewrite Hin.
  rewrite <- app_assoc. reflexivity.
Qed.

(** A turn on a keyword to search for: the loop goes by what the fetch
    does. *)
Lemma loop_query (fuel : nat) (lang is_rtl shown : value) (line : string)
    (rest : list tty_event) (w : world) :
  stdin w = Line line :: rest ->
  Text.mem (Text.lower (Text.strip line)) ["quit"; "exit"; "q"] = false ->
  Text.lower (Text.strip line) <> "lang" ->
  Text.strip line <> EmptyString ->
  process (PyStr (Text.strip line)) is_rtl = Return shown ->
  loop (S fuel) lang is_rtl w =
    match fetch (Text.strip line) lang
            (emit (Printed (Text.nl ++ "⏳ Fetching suggestions for '"
                            ++ py_str py_repr shown ++ "'..."))
               (mkWorld rest (trace w ++ [Printed turn_rule; Prompted keyword_prompt])
                  (files w)))
    with
    | (Return suggestions, fetched) =>
        (display (PyStr (Text.strip line)) suggestions is_rtl ;;
         next <- ask_continue lang is_rtl ;;
         match next with
         | Break => ret tt
         | Continue lang' is_rtl' => loop fuel lang' is_rtl'
         end) fetched
    | (Raise e, fetched) => (Raise e, fetched)
    | (OutOfFuel, fetched) => (OutOfFuel, fetched)
    end.
Proof.
  intros Hin Hexit Hlang Hsome Hshown.
  rewrite main_loop_turn, (turn_reads lang is_rtl line rest w Hin). cbv zeta.
  rewrite Hexit. apply String.eqb_neq in Hlang. rewrite Hlang.
  rewrite (is_empty_false _ Hsome).
  unfold bind at 1. unfold lift at 1. rewrite Hshown.
  unfold bind at 1. unfold print at 1.
  unfold bind at 1.
  match goal with
  | |- context [fetch ?k ?l ?a] => destruct (fetch k l a) as [[suggestions | e | ] fetched]
  end; try reflexivity.
  unfold bind.
  destruct (display (PyStr (Text.strip line)) suggestions is_rtl fetched)
    as [[u | e | ] displayed]; try reflexivity.
  destruct (ask_continue lang is_rtl displayed) as [[[lang' is_rtl' | ] | e | ] asked];
    reflexivity.
Qed.


(** When the loop returns, [main] returns: the program ends with
    status 0 and prints nothing more. *)
Lemma run_after_loop_returns (w w1 wend : world) (lang is_rtl : value) :
  choose
    (emit_all [Printed "🚀 Google Autocomplete Suggestion Tool";
               Printed (Text.repeat_str "=" 40)] w)
  = (Return (lang, is_rtl), w1) ->
  loop (S (List.length (stdin w1))) lang is_rtl
    (emit_all
       [Printed (Text.nl ++ "✅ Language set to: " ++ py_str py_repr lang);
        Printed (Text.nl ++ "💡 Tips:");
        Printed "  - Type 'quit', 'exit', or 'q' to exit";
        Printed "  - Type 'lang' to change language";
        Printed "  - Press Ctrl+C to exit anytime"] w1)
  = (Return tt, wend) ->
  session w = (Exited 0, trace wend).
Proof.
  intros Hchoose Hloop. unfold run.
  rewrite (main_after_selection json_loads json_dumps requests_get http_error_text
             reshape get_display py_repr w w1 lang is_rtl Hchoose).
  unfold try_except. rewrite Hloop. reflexivity.
Qed.


(** C8: the answer to the question that ends a query, in [main_loop].
    When the answer, trimmed and lowered, is [n] or [no], the thank-you
    line is printed and the loop ends; on any other answer the loop goes
    on to its next turn with the language binding as it was.  The loop
    returning ends the program with status 0 and nothing more printed. *)
Theorem continue_question_answer (fuel : nat) (lang is_rtl shown suggestions : value)
    (line reply : string) (rest rest' : list tty_event)
    (w fetched displayed : world) :
  stdin w = Line line :: rest ->
  let keyword := Text.strip line in
  Text.mem (Text.lower keyword) ["quit"; "exit"; "q"] = false ->
  Text.lower keyword <> "lang" ->
  keyword <> EmptyString ->
  process (PyStr keyword) is_rtl = Return shown ->
  fetch keyword lang
    (emit (Printed (Text.nl ++ "⏳ Fetching suggestions for '"
                    ++ py_str py_repr shown ++ "'..."))
       (mkWorld rest (trace w ++ [Printed turn_rule; Prompted keyword_prompt]) (files w)))
  = (Return suggestions, fetched) ->
  display (PyStr keyword) suggestions is_rtl fetched = (Return tt, displayed) ->
  stdin displayed = Line reply :: rest' ->
  let asked :=
    mkWorld rest' (trace displayed ++ [Prompted continue_prompt]) (files displayed) in
  (Text.mem (Text.lower (Text.strip reply)) ["n"; "no"] = true ->
   loop (S fuel) lang is_rtl w =
     (Return tt,
      emit (Printed (Text.nl ++ "👋 Thanks for using Google Autocomplete Tool!")) asked))
  /\ (Text.mem (Text.lower (Text.strip reply)) ["n"; "no"] = false ->
      loop (S fuel) lang is_rtl w = loop fuel lang is_rtl asked)
  /\ (forall w0 w1 wend lang0 is_rtl0,
        choose
          (emit_all [Printed "🚀 Google Autocomplete Suggestion Tool";
                     Printed (Text.repeat_str "=" 40)] w0)
        = (Return (lang0, is_rtl0), w1) ->
        loop (S (List.length (stdin w1))) lang0 is_rtl0
          (emit_all
             [Printed (Text.nl ++ "✅ Language set to: " ++ py_str py_repr lang0);
              Printed (Text.nl ++ "💡 Tips:");
              Printed "  - Type 'quit', 'exit', or 'q' to exit";
              Printed "  - Type 'lang' to change language";
              Printed "  - Press Ctrl+C to exit anytime"] w1)
        = (Return tt, wend) ->
        session w0 = (Exited 0, trace wend)).
Proof.
  intros Hin keyword Hexit Hlang Hsome Hshown Hfetch Hdisplay Hreply asked.
  assert (Hloop : loop (S fuel) lang is_rtl w =
            if Text.mem (Text.lower (Text.strip reply)) ["n"; "no"]
            then (Return tt,
                  emit (Printed (Text.nl ++ "👋 Thanks for using Google Autocomplete Tool!"))
                    asked)
            else loop fuel lang is_rtl asked).
  { rewrite (loop_query fuel lang is_rtl shown line rest w Hin Hexit Hlang Hsome Hshown).
    fold keyword. rewrite Hfetch.
    unfold bind at 1. rewrite Hdisplay.
    unfold bind at 1.
    rewrite (ask_continue_answer lang is_rtl reply rest' displayed Hreply). fold asked.
    destruct (Text.mem (Text.lower (Text.strip reply)) ["n"; "no"]); reflexivity. }
  split; [ | split].
  - intros Hno. now rewrite Hloop, Hno.
  - intros Hother. now rewrite Hloop, Hother.
  - intros w0 w1 wend lang0 is_rtl0. apply run_after_loop_returns.
Qed.

End Turns.


Lemma continue_question_answer_witness :
  Ref.loop (Ref.always (NetResponse 200 Ref.cat_body)) 1 (PyStr "en") (PyBool false)
    (fresh_world [Line "cat"; Line " No "])
  = (Return tt,
     emit_all
       [Printed turn_rule; Prompted keyword_prompt;
        Printed (Text.nl ++ "⏳ Fetching suggestions for 'cat'...");
        Requested "http://suggestqueries.google.com/complete/search?client=firefox&q=cat&hl=en";
        Printed (Text.nl ++ "🔍 Autocomplete suggestions for 'cat':");
        Printed "======================================";
        Printed " 1. cat food";
        Printed " 2. cats";
        Printed (Text.nl ++ "Found 2 suggestion(s)");
        Prompted continue_prompt;
        Printed (Text.nl ++ "👋 Thanks for using Google Autocomplete Tool!")]
       (fresh_world []))
  /\ Ref.loop (Ref.always (NetResponse 200 Ref.cat_body)) 2 (PyStr "en") (PyBool false)
       (fresh_world [Line "cat"; Line "quit"])
     = (Raise EOFError,
        emit_all
          [Printed turn_rule; Prompted keyword_prompt;
           Printed (Text.nl ++ "⏳ Fetching suggestions for 'cat'...");
           Requested "http://suggestqueries.google.com/complete/search?client=firefox&q=cat&hl=en";
           Printed (Text.nl ++ "🔍 Autocomplete suggestions for 'cat':");
           Printed "======================================";
           Printed " 1. cat food";
           Printed " 2. cats";
           Printed (Text.nl ++ "Found 2 suggestion(s)");
           Prompted continue_prompt;
           Printed turn_rule; Prompted keyword_prompt]
          (fresh_world []))
  /\ fst (Ref.session (Ref.always (NetResponse 200 Ref.cat_body))
            (fresh_world [Line "1"; Line "cat"; Line "n"]))
     = Exited 0.
Proof.
  unfold Ref.loop, Ref.session.
  split; [ | split].
  - edestruct (continue_question_answer Ref.json_loads Ref.json_dumps
                 (Ref.always (NetResponse 200 Ref.cat_body))
                 Ref.http_error_text Ref.reshape Ref.get_display Ref.py_repr
                 0 (PyStr "en") (PyBool false) (PyStr "cat")
                 (PyList [PyStr "cat food"; PyStr "cats"])
                 "cat" " No " [Line " No "] []
                 (fresh_world [Line "cat"; Line " No "]))
      as (Hno & _ & _).
    + reflexivity.
    + reflexivity.
    + discriminate.
    + discriminate.
    + reflexivity.
    + vm_compute. reflexivity.
    + vm_compute. reflexivity.
    + reflexivity.
    + rewrite (Hno eq_refl). vm_compute. reflexivity.
  - edestruct (continue_question_answer Ref.json_loads Ref.json_dumps
                 (Ref.always (NetResponse 200 Ref.cat_body))
                 Ref.http_error_text Ref.reshape Ref.get_display Ref.py_repr
                 1 (PyStr "en") (PyBool false) (PyStr "cat")
                 (PyList [PyStr "cat food"; PyStr "cats"])
                 "cat" "quit" [Line "quit"] []
                 (fresh_world [Line "cat"; Line "quit"]))
      as (_ & Hother & _).
    + reflexivity.
    + reflexivity.
    + discriminate.
    + discriminate.
    + reflexivity.
    + vm_compute. reflexivity.
    + vm_compute. reflexivity.
    + reflexivity.
    + rewrite (Hother eq_refl). vm_compute. reflexivity.
  - edestruct (continue_question_answer Ref.json_loads Ref.json_dumps
                 (Ref.always (NetResponse 200 Ref.cat_body))
                 Ref.http_error_text Ref.reshape Ref.get_display Ref.py_repr
                 0 (PyStr "en") (PyBool false) (PyStr "cat")
                 (PyList [PyStr "cat food"; PyStr "cats"])
                 "cat" "n" [Line "n"] []
                 (fresh_world [Line "cat"; Line "n"]))
      as (_ & _ & Hends).
    + reflexivity.
    + reflexivity.
    + discriminate.
    + discriminate.
    + reflexivity.
    + vm_compute. reflexivity.
    + vm_compute. reflexivity.
    + reflexivity.
    + erewrite Hends.
      * reflexivity.
      * vm_compute. reflexivity.
      * vm_compute. reflexivity.
Defined.

(** The empty list is displayed without a count line: the line
    [No suggestions found.] is the last one printed. *)
Lemma display_empty_prints_no_count :
  Ref.display (PyStr "cat") (PyList []) (PyBool false) (fresh_world [])
  = (Return tt,
     emit_all
       [Printed (Text.nl ++ "🔍 Autocomplete suggestions for 'cat':");
        Printed "======================================";
        Printed "No suggestions found."] (fresh_world []))
  /\ ~ In (Printed (Text.nl ++ "Found 0 suggestion(s)"))
         (trace (snd (Ref.display (PyStr "cat") (PyList []) (PyBool false)
                        (fresh_world [])))).
Proof.
  split.
  - vm_compute. reflexivity.
  - vm_compute. intros [H | [H | [H | []]]]; discriminate H.
Qed.

